(** * flaskext.payments: a shallow embedding of the payment facade

    The development follows [src/flaskext/payments.py]: the [Payments]
    facade, the [Transaction] value object and the [PayPalGateway]
    implementation.  Python objects are modelled by their attribute
    dictionaries ([gmap string pyval]), exceptions by a result type, and
    in-place mutation of the transaction by explicit state passing. *)

From Stdlib Require Import ZArith Ascii String.
From stdpp Require Import base option list strings gmap fin_maps.

Local Open Scope string_scope.

(** ** Python values *)

(** Scalars that occur as attribute values and configuration values. *)
Inductive scalar : Type :=
  | SNone
  | SBool (b : bool)
  | SInt (n : Z)
  | SStr (s : string).

Global Instance scalar_eq_dec : EqDecision scalar.
Proof. solve_decision. Defined.

(** A response object of the [paypal] package: its attributes. *)
Abbreviation Response := (gmap string scalar).

Inductive pyval : Type :=
  | VScalar (x : scalar)
  | VResponse (r : Response).

Coercion VScalar : scalar >-> pyval.

Global Instance pyval_eq_dec : EqDecision pyval.
Proof. solve_decision. Defined.

Abbreviation None_ := (VScalar SNone).
Abbreviation False_ := (VScalar (SBool false)).
Abbreviation True_ := (VScalar (SBool true)).
Abbreviation Str s := (VScalar (SStr s)).

(** [v == s] for a string literal [s]: only a string with the same
    characters compares equal. *)
Definition eq_str (v : pyval) (s : string) : bool :=
  match v with
  | VScalar (SStr s') => String.eqb s' s
  | _ => false
  end.

(** ** Exceptions and results *)

Inductive exn : Type :=
  | PaymentsConfigurationError
  | PaymentsValidationError
  | PaymentsErrorFromGateway
  | KeyError
  | NameError (name : string)
  | AttributeError (attr : string)
  | TypeError
  | LibraryError (name : string).

Global Instance exn_eq_dec : EqDecision exn.
Proof. solve_decision. Defined.

Inductive Result (A : Type) : Type :=
  | Ok (a : A)
  | Raise (e : exn).
Arguments Ok {A} a.
Arguments Raise {A} e.

(** ** Strings: [key.replace('_','').upper()] *)

(** [s.replace(c, '')] for a one-character [c]. *)
Fixpoint replace_char_empty (c : ascii) (s : string) : string :=
  match s with
  | EmptyString => EmptyString
  | String a r =>
      if Ascii.eqb a c then replace_char_empty c r
      else String a (replace_char_empty c r)
  end.

Definition upper_ascii (a : ascii) : ascii :=
  let n := nat_of_ascii a in
  if (97 <=? n)%nat && (n <=? 122)%nat then ascii_of_nat (n - 32) else a.

(** [s.upper()] on byte strings. *)
Fixpoint upper (s : string) : string :=
  match s with
  | EmptyString => EmptyString
  | String a r => String (upper_ascii a) (upper r)
  end.

Definition keycase (key : string) : string :=
  upper (replace_char_empty "_"%char key).

(** ** Dictionaries *)

(** [d.get(k, default)]; [d.get(k)] is [dict_get d k None_]. *)
Definition dict_get (d : gmap string pyval) (k : string) (dflt : pyval) : pyval :=
  default dflt (d !! k).

(** [dict(pairs)]: the pairs are inserted from left to right, so a later
    pair replaces an earlier one with the same key. *)
Definition py_dict (pairs : list (string * pyval)) : gmap string pyval :=
  foldl (λ m p, <[p.1 := p.2]> m) ∅ pairs.

(** [d.update(kwargs)]: the entries of [kwargs] win. *)
Definition dict_update (d kwargs : gmap string pyval) : gmap string pyval :=
  kwargs ∪ d.

(** [d[k]] for a dictionary with string keys: [KeyError] when [k] is not
    a key (a value that is not a string equals no string key). *)
Definition getitem {X} (d : gmap string X) (k : pyval) : Result X :=
  match k with
  | VScalar (SStr s) =>
      match d !! s with
      | Some x => Ok x
      | None => Raise KeyError
      end
  | _ => Raise KeyError
  end.

(** The order in which Python enumerates a dictionary is not specified:
    [iteritems] is any enumeration of the entries. *)
Record DictOrder : Type := {
  iteritems : gmap string pyval → list (string * pyval);
  iteritems_perm : ∀ d, iteritems d ≡ₚ map_to_list d
}.

Definition sorted_order : DictOrder :=
  {| iteritems := map_to_list; iteritems_perm := λ d, reflexivity _ |}.

(** ** Computations that mutate an object and may raise *)

Definition M (S A : Type) : Type := S → Result A * S.

Definition ret {S A} (a : A) : M S A := λ s, (Ok a, s).
Definition raise {S A} (e : exn) : M S A := λ s, (Raise e, s).
Definition bind {S A B} (m : M S A) (k : A → M S B) : M S B :=
  λ s, match m s with
       | (Ok a, s') => k a s'
       | (Raise e, s') => (Raise e, s')
       end.
Definition lift {S A} (r : Result A) : M S A := λ s, (r, s).

(** [try: m except KeyError: h]; the exception classes of the [paypal]
    package are taken not to derive from [KeyError]. *)
Definition try_except_KeyError {S A} (m : M S A) (h : M S A) : M S A :=
  λ s, match m s with
       | (Raise KeyError, s') => h s'
       | r => r
       end.

Declare Scope py_scope.
Delimit Scope py_scope with py.
Notation "x <- m ;; k" := (bind m (λ x, k))
  (at level 100, m at next level, right associativity) : py_scope.
Notation "m ;;; k" := (bind m (λ _, k))
  (at level 100, right associativity) : py_scope.
Local Open Scope py_scope.

(** The exception classes defined at module level (lines 15-17). *)
Definition module_exceptions : list (string * exn) :=
  [ ("PaymentsConfigurationError", PaymentsConfigurationError);
    ("PaymentsValidationError", PaymentsValidationError);
    ("PaymentsErrorFromGateway", PaymentsErrorFromGateway) ].

Fixpoint lookup_name (name : string) (l : list (string * exn)) : option exn :=
  match l with
  | [] => None
  | (n, e) :: l' => if String.eqb n name then Some e else lookup_name name l'
  end.

(** [raise Name()]: the name is looked up among the module's exception
    classes when the statement runs; an undefined name is a [NameError]. *)
Definition raise_name {S A} (name : string) : M S A :=
  match lookup_name name module_exceptions with
  | Some e => raise e
  | None => raise (NameError name)
  end.

(** ** Objects *)

(** A class of transaction objects: [Transaction] or a subclass, which
    may override [validate]; [validate] reads the fields of the instance
    and answers, it writes nothing. *)
Record Class : Type := {
  cls_name : string;
  cls_validate : gmap string pyval → bool
}.

Record Object : Type := {
  ob_class : Class;
  __dict__ : gmap string pyval
}.

(** A call made on the processor's client (or on a test double). *)
Record Call : Type := {
  call_name : string;
  call_args : list pyval;
  call_kwargs : gmap string pyval
}.

(** What a gateway operation works on: the transaction object passed by
    reference as [trans], and the calls made so far. *)
Record World : Type := {
  trans : Object;
  calls : list Call
}.

(** The value returned by an operation: the transaction object passed
    in, [None], or another value. *)
Inductive Ret : Type :=
  | RetTrans
  | RetNone
  | RetValue (v : pyval).

(** [trans.a] *)
Definition getattr (a : string) : M World pyval :=
  λ w, match __dict__ (trans w) !! a with
       | Some v => (Ok v, w)
       | None => (Raise (AttributeError a), w)
       end.

(** [trans.a = v] *)
Definition setattr (a : string) (v : pyval) : M World unit :=
  λ w, (Ok tt,
        {| trans := {| ob_class := ob_class (trans w);
                       __dict__ := <[a := v]> (__dict__ (trans w)) |};
           calls := calls w |}).

(** [trans.validate()].  The attribute is looked up on the instance
    before the class, and the constructor stores any keyword in the
    instance, so a field named [validate] shadows the method; none of the
    values a field can hold here ([None], a boolean, an integer, a string,
    a response object) is callable, and calling one is a [TypeError].
    Without such a field the method of the class runs. *)
Definition call_validate : M World bool :=
  λ w, match __dict__ (trans w) !! "validate" with
       | Some _ => (Raise TypeError, w)
       | None => (Ok (cls_validate (ob_class (trans w)) (__dict__ (trans w))), w)
       end.

Definition record_call (c : Call) : M World unit :=
  λ w, (Ok tt, {| trans := trans w; calls := calls w ++ [c] |}).

(** [r.a] on a response object. *)
Definition response_attr (r : Response) (a : string) : Result pyval :=
  match r !! a with
  | Some x => Ok (VScalar x)
  | None => Raise (AttributeError a)
  end.

(** The operations every gateway offers to the facade. *)
Record Gateway : Type := {
  gw_setupRedirect : M World Ret;
  gw_authorise : M World Ret
}.

(** The Flask application: only its [config] is read. *)
Record App : Type := { config : gmap string pyval }.

(** ** The [paypal] package (imported, line 13) *)

Module paypal.

(** A [PayPalInterface] instance: the three methods the gateway calls. *)
Record Interface : Type := {
  set_express_checkout : gmap string pyval → Result Response;
  generate_express_checkout_redirect_url : pyval → Result pyval;
  do_express_checkout_payment : pyval → gmap string pyval → Result Response
}.

(** The two constructors: [PayPalConfig], called with keyword
    arguments, and [PayPalInterface], called with the config object. *)
Record package : Type := {
  PayPalConfig : gmap string pyval → Result (gmap string pyval);
  PayPalInterface : gmap string pyval → Result Interface
}.

End paypal.

(** ** class Transaction (lines 93-113) *)

Module Transaction.

Definition validate (self : gmap string pyval) : bool := true.

Definition class : Class :=
  {| cls_name := "Transaction"; cls_validate := validate |}.

(** Construction with keyword arguments, for [Transaction] or a
    subclass that inherits [__init__]: a keyword named [self] collides
    with the first parameter. *)
Definition __init__ (cls : Class) (kwargs : gmap string pyval) : Result Object :=
  if decide ("self" ∈ dom kwargs) then Raise TypeError
  else
    let d := dict_update ∅ kwargs in
    Ok {| ob_class := cls; __dict__ := <["authorised" := False_]> d |}.

End Transaction.

(** ** class PayPalGateway (lines 119-219) *)

Module PayPalGateway.

(** The attributes of a gateway instance. *)
Record t : Type := { interface : paypal.Interface }.

Section Construction.
Variable pkg : paypal.package.

(** The keyword arguments handed to [PayPalConfig] (lines 133-138). *)
Definition config_kwargs (app : App) : gmap string pyval :=
  <["API_ENVIRONMENT" :=
      dict_get (config app) "PAYMENT_API_ENVIRONMENT" (Str "sandbox")]>
  (<["API_USERNAME" := dict_get (config app) "PAYPAL_API_USER" None_]>
  (<["API_PASSWORD" := dict_get (config app) "PAYPAL_API_PWD" None_]>
  (<["API_SIGNATURE" := dict_get (config app) "PAYPAL_API_SIGNATURE" None_]>
   ∅))).

Definition _init_API (app : App) : M (option t) unit :=
  config <- lift (paypal.PayPalConfig pkg (config_kwargs app));;
  i <- lift (paypal.PayPalInterface pkg config);;
  (λ _, (Ok tt, Some {| interface := i |})).

(** The state is the instance under construction: [None] until
    [self.interface] is assigned. *)
Definition __init__ (app : App) : M (option t) unit :=
  try_except_KeyError (_init_API app) (raise PaymentsConfigurationError).

(** [PayPalGateway(app)] *)
Definition new (app : App) : Result t :=
  match __init__ app None with
  | (Ok _, Some self) => Ok self
  | (Ok _, None) => Raise (AttributeError "interface")
  | (Raise e, _) => Raise e
  end.
End Construction.

Section Methods.
Variable order : DictOrder.
Variable self : t.

(** API methods (lines 207-211): each forwards to the interface and is
    recorded as a call on the processor's client. *)
Definition SetExpressCheckout (kwargs : gmap string pyval) : M World Response :=
  record_call {| call_name := "set_express_checkout";
                 call_args := []; call_kwargs := kwargs |};;;
  lift (paypal.set_express_checkout (interface self) kwargs).

Definition DoExpressCheckoutPayment (token : pyval)
    (kwargs : gmap string pyval) : M World Response :=
  record_call {| call_name := "do_express_checkout_payment";
                 call_args := [token]; call_kwargs := kwargs |};;;
  lift (paypal.do_express_checkout_payment (interface self) token kwargs).

(** [self.interface.generate_express_checkout_redirect_url(token)], the
    direct call of line 159. *)
Definition generate_express_checkout_redirect_url (token : pyval) : M World pyval :=
  record_call {| call_name := "generate_express_checkout_redirect_url";
                 call_args := [token]; call_kwargs := ∅ |};;;
  lift (paypal.generate_express_checkout_redirect_url (interface self) token).

(** [params] of line 156. *)
Definition params (d : gmap string pyval) : gmap string pyval :=
  py_dict ((λ kv, (keycase kv.1, kv.2)) <$> iteritems order d).

Definition _setupExpressTransfer : M World Ret :=
  d <- (λ w, (Ok (__dict__ (trans w)), w));;
  r <- SetExpressCheckout (params d);;
  token <- lift (response_attr r "token");;
  setattr "token" token;;;
  token' <- lift (response_attr r "token");;
  url <- generate_express_checkout_redirect_url token';;
  setattr "next" url;;;
  ret RetTrans.

Definition setupRedirect : M World Ret :=
  type <- getattr "type";;
  if eq_str type "Express" then _setupExpressTransfer
  else raise_name "PaymentTransactionValidationError".

(** The keyword arguments of the payment request (lines 181-183). *)
Definition payment_kwargs (action payerid amt : pyval) : gmap string pyval :=
  <["PAYMENTACTION" := action]>
  (<["PAYERID" := payerid]>
  (<["AMT" := amt]>
  (<["CURRENCYCODE" := Str "JPY"]> ∅))).

Definition _authoriseExpress (action : pyval) : M World Ret :=
  token <- getattr "token";;
  payerid <- getattr "payerid";;
  amt <- getattr "amt";;
  r <- DoExpressCheckoutPayment token (payment_kwargs action payerid amt);;
  transactionid <- lift (response_attr r "TRANSACTIONID");;
  setattr "transactionid" transactionid;;;
  setattr "raw" (VResponse r);;;
  setattr "authorised" True_;;;
  ret RetTrans.

Definition authorise : M World Ret :=
  type <- getattr "type";;
  if eq_str type "Express" then _authoriseExpress (Str "Sale")
  else
    type' <- getattr "type";;
    if eq_str type' "Direct" then ret RetNone
    else raise_name "PaymentTransactionValidationError".

(** The instance as the facade sees it: its two public methods. *)
Definition bound : Gateway :=
  {| gw_setupRedirect := setupRedirect; gw_authorise := authorise |}.
End Methods.

End PayPalGateway.

(** ** class Payments (lines 19-91) *)

Module Payments.

(** The attributes of a facade instance; [None] is an attribute that
    has not been assigned. *)
Record t : Type := {
  gateway : option Gateway;
  testing : option pyval;
  app : option App
}.

(** A new instance, before [__init__] runs. *)
Definition fresh : t := {| gateway := None; testing := None; app := None |}.

Section Initialisation.
Variable pkg : paypal.package.
Variable order : DictOrder.

(** The dispatch table of line 58: a key and the constructor it
    selects. *)
Definition gateways : gmap string (App → Result Gateway) :=
  {[ "PayPal" := λ app,
       match PayPalGateway.new pkg app with
       | Ok g => Ok (PayPalGateway.bound order g)
       | Raise e => Raise e
       end ]}.

Definition _init_gateway (app_ : App) : M t unit :=
  try_except_KeyError
    (ctor <- lift (getitem gateways (dict_get (config app_) "PAYMENT_API" None_));;
     g <- lift (ctor app_);;
     (λ self, (Ok tt, {| gateway := Some g; testing := testing self;
                         app := app self |})))
    (raise PaymentsConfigurationError).

Definition init_app (app_ : App) : M t unit :=
  _init_gateway app_;;;
  (λ self, (Ok tt, {| gateway := gateway self;
                      testing := Some (dict_get (config app_) "TESTING" None_);
                      app := app self |}));;;
  (λ self, (Ok tt, {| gateway := gateway self; testing := testing self;
                      app := Some app_ |})).

Definition __init__ (app_ : option App) : M t unit :=
  match app_ with
  | Some a => init_app a
  | None => ret tt
  end.
End Initialisation.

Section Operations.
Variable self : t.

(** [self.gateway]: an [AttributeError] before [init_app] has
    bound one. *)
Definition self_gateway : M World Gateway :=
  match gateway self with
  | Some g => ret g
  | None => raise (AttributeError "gateway")
  end.

Definition setupRedirect : M World Ret :=
  valid <- call_validate;;
  if valid then
    g <- self_gateway;;
    gw_setupRedirect g
  else raise_name "PaymentTransactionValidationError".

Definition authorise : M World Ret :=
  valid <- call_validate;;
  if valid then
    g <- self_gateway;;
    gw_authorise g
  else raise_name "PaymentTransactionValidationError".
End Operations.

End Payments.

(** The fields of the transaction that an operation may have written. *)
Definition touches_only (keys : list string) (w w' : World) : Prop :=
  ob_class (trans w') = ob_class (trans w)
  ∧ ∀ k, k ∉ keys → __dict__ (trans w') !! k = __dict__ (trans w) !! k.

(** ** Test doubles *)

Module Doubles.

(** A processor client that approves everything. *)
Definition interface : paypal.Interface :=
  {| paypal.set_express_checkout := λ _, Ok {[ "token" := SStr "EC-1" ]};
     paypal.generate_express_checkout_redirect_url :=
       λ _, Ok (Str "https://processor.example/checkout?token=EC-1");
     paypal.do_express_checkout_payment :=
       λ _ _, Ok {[ "TRANSACTIONID" := SStr "TX-1" ]} |}.

(** A processor client whose payment response carries an empty
    identifier. *)
Definition blank_interface : paypal.Interface :=
  {| paypal.set_express_checkout := paypal.set_express_checkout interface;
     paypal.generate_express_checkout_redirect_url :=
       paypal.generate_express_checkout_redirect_url interface;
     paypal.do_express_checkout_payment :=
       λ _ _, Ok {[ "TRANSACTIONID" := SStr "" ]} |}.

(** A package whose config constructor keeps whatever it is given. *)
Definition lenient : paypal.package :=
  {| paypal.PayPalConfig := λ kwargs, Ok kwargs;
     paypal.PayPalInterface := λ _, Ok interface |}.

(** A package whose config constructor rejects a missing user name
    with an exception class of its own. *)
Definition strict : paypal.package :=
  {| paypal.PayPalConfig := λ kwargs,
       match kwargs !! "API_USERNAME" with
       | Some (VScalar (SStr _)) => Ok kwargs
       | _ => Raise (LibraryError "PayPalConfigError")
       end;
     paypal.PayPalInterface := λ _, Ok interface |}.

(** A gateway that only records that it was called. *)
Definition spy : Gateway :=
  {| gw_setupRedirect :=
       record_call {| call_name := "setupRedirect"; call_args := [];
                      call_kwargs := ∅ |};;; ret RetTrans;
     gw_authorise :=
       record_call {| call_name := "authorise"; call_args := [];
                      call_kwargs := ∅ |};;; ret RetTrans |}.

(** A subclass of [Transaction] whose [validate] returns [False]. *)
Definition Rejecting : Class :=
  {| cls_name := "Rejecting"; cls_validate := λ _, false |}.

Definition gateway : PayPalGateway.t := {| PayPalGateway.interface := interface |}.
Definition blank_gateway : PayPalGateway.t :=
  {| PayPalGateway.interface := blank_interface |}.

(** A facade bound to gateway [g]. *)
Definition facade (g : Gateway) : Payments.t :=
  {| Payments.gateway := Some g; Payments.testing := Some None_;
     Payments.app := None |}.

Definition world (cls : Class) (d : gmap string pyval) : World :=
  {| trans := {| ob_class := cls; __dict__ := d |}; calls := [] |}.

End Doubles.

(** Further test doubles: processors that fail. *)

Module Failing.

(** A processor client that declines the payment. *)
Definition declining : paypal.Interface :=
  {| paypal.set_express_checkout :=
       paypal.set_express_checkout Doubles.interface;
     paypal.generate_express_checkout_redirect_url :=
       paypal.generate_express_checkout_redirect_url Doubles.interface;
     paypal.do_express_checkout_payment :=
       λ _ _, Raise (LibraryError "PayPalAPIResponseError") |}.

(** A processor client whose payment response has no identifier. *)
Definition anonymous : paypal.Interface :=
  {| paypal.set_express_checkout :=
       paypal.set_express_checkout Doubles.interface;
     paypal.generate_express_checkout_redirect_url :=
       paypal.generate_express_checkout_redirect_url Doubles.interface;
     paypal.do_express_checkout_payment := λ _ _, Ok {[ "ACK" := SStr "Success" ]} |}.

(** A processor client that cannot build the redirect URL. *)
Definition no_url : paypal.Interface :=
  {| paypal.set_express_checkout :=
       paypal.set_express_checkout Doubles.interface;
     paypal.generate_express_checkout_redirect_url :=
       λ _, Raise (LibraryError "PayPalError");
     paypal.do_express_checkout_payment :=
       paypal.do_express_checkout_payment Doubles.interface |}.

(** A package whose interface constructor fails. *)
Definition unreachable : paypal.package :=
  {| paypal.PayPalConfig := λ kwargs, Ok kwargs;
     paypal.PayPalInterface := λ _, Raise (LibraryError "PayPalError") |}.

Definition gateway (i : paypal.Interface) : PayPalGateway.t :=
  {| PayPalGateway.interface := i |}.

(** A transaction ready for authorisation. *)
Definition approved : gmap string pyval :=
  <["authorised" := False_]>
  (<["type" := Str "Express"]>
  (<["token" := Str "EC-1"]>
  (<["payerid" := Str "PAYER1"]>
  {[ "amt" := VScalar (SInt 10) ]}))).

End Failing.

(** Another enumeration of a dictionary: the entries of [sorted_order]
    in the opposite order. *)
Definition reversed_order : DictOrder :=
  {| iteritems := λ d, reverse (map_to_list d);
     iteritems_perm := λ d, reverse_Permutation (map_to_list d) |}.

(** * Properties *)

(** ** Steps of a computation *)

Lemma bind_ok {S A B} (m : M S A) (k : A → M S B) s a s' :
  m s = (Ok a, s') → bind m k s = k a s'.
Proof. intros H. unfold bind. by rewrite H. Qed.

Lemma bind_raise {S A B} (m : M S A) (k : A → M S B) s e s' :
  m s = (Raise e, s') → bind m k s = (Raise e, s').
Proof. intros H. unfold bind. by rewrite H. Qed.

Lemma getattr_some a v w :
  __dict__ (trans w) !! a = Some v → getattr a w = (Ok v, w).
Proof. intros H. unfold getattr. by rewrite H. Qed.

Lemma getattr_none a w :
  __dict__ (trans w) !! a = None → getattr a w = (Raise (AttributeError a), w).
Proof. intros H. unfold getattr. by rewrite H. Qed.

(** The name raised on lines 77, 91, 146 and 176 is not one of the
    module's classes. *)
Lemma raise_validation_error {S A} (s : S) :
  @raise_name S A "PaymentTransactionValidationError" s
  = (Raise (NameError "PaymentTransactionValidationError"), s)
  ∧ @raise_name S A "PaymentsValidationError" s = (Raise PaymentsValidationError, s).
Proof. by split. Qed.

(** ** The validation gate of the facade *)

(** What [trans.validate()] does: with a field named [validate] in the
    instance it raises [TypeError]; without one it returns what the method
    of the class returns.  Either way nothing is written. *)
Lemma call_validate_cases w :
  match __dict__ (trans w) !! "validate" with
  | Some _ => call_validate w = (Raise TypeError, w)
  | None =>
      call_validate w
      = (Ok (cls_validate (ob_class (trans w)) (__dict__ (trans w))), w)
  end.
Proof. unfold call_validate. by destruct (__dict__ (trans w) !! "validate"). Qed.

Lemma call_validate_returns w b :
  (call_validate w).1 = Ok b → call_validate w = (Ok b, w).
Proof.
  pose proof (call_validate_cases w) as H.
  destruct (__dict__ (trans w) !! "validate"); rewrite H; cbn; congruence.
Qed.

Lemma call_validate_raises w e :
  (call_validate w).1 = Raise e → call_validate w = (Raise e, w).
Proof.
  pose proof (call_validate_cases w) as H.
  destruct (__dict__ (trans w) !! "validate"); rewrite H; cbn; congruence.
Qed.

(** C1: when [validate()] returns [False], [Payments.setupRedirect] and
    [Payments.authorise] leave the transaction and the record of calls as
    they were, whatever gateway is bound, so the gateway is not invoked;
    the exception they raise is [NameError], because the name
    [PaymentTransactionValidationError] is bound nowhere in the module
    (the class defined on line 16 is [PaymentsValidationError]). *)
Theorem Payments_invalid_transaction (self : Payments.t) (w : World) :
  (call_validate w).1 = Ok false →
  Payments.setupRedirect self w
    = (Raise (NameError "PaymentTransactionValidationError"), w)
  ∧ Payments.authorise self w
    = (Raise (NameError "PaymentTransactionValidationError"), w).
Proof.
  intros Hv%call_validate_returns.
  unfold Payments.setupRedirect, Payments.authorise.
  split.
  - by rewrite (bind_ok _ _ w false w).
  - by rewrite (bind_ok _ _ w false w).
Qed.

Lemma Payments_invalid_transaction_witness :
  let w := Doubles.world Doubles.Rejecting {[ "type" := Str "Express" ]} in
  (call_validate w).1 = Ok false
  ∧ Payments.setupRedirect (Doubles.facade Doubles.spy) w
    = (Raise (NameError "PaymentTransactionValidationError"), w)
  ∧ Payments.authorise (Doubles.facade Doubles.spy) w
    = (Raise (NameError "PaymentTransactionValidationError"), w).
Proof.
  split; [reflexivity|].
  apply (Payments_invalid_transaction (Doubles.facade Doubles.spy)
           (Doubles.world Doubles.Rejecting {[ "type" := Str "Express" ]})).
  reflexivity.
Defined.

(** When [validate()] itself raises, the facade raises the same
    exception, the gateway is not reached and nothing is written. *)
Lemma facade_validate_raises self w e :
  (call_validate w).1 = Raise e →
  Payments.setupRedirect self w = (Raise e, w)
  ∧ Payments.authorise self w = (Raise e, w).
Proof.
  intros Hv%call_validate_raises.
  unfold Payments.setupRedirect, Payments.authorise.
  split; by rewrite (bind_raise _ _ w e w).
Qed.

(** A rejecting transaction built with a keyword named [validate]: the
    call on line 75 raises [TypeError] before the method is reached, and
    the gateway records nothing. *)
Example facade_shadowed_validate :
  let w := Doubles.world Doubles.Rejecting
             (<["validate" := None_]> {[ "type" := Str "Express" ]}) in
  Payments.setupRedirect (Doubles.facade Doubles.spy) w = (Raise TypeError, w)
  ∧ Payments.authorise (Doubles.facade Doubles.spy) w = (Raise TypeError, w).
Proof. vm_compute. by split. Qed.

(** ** Transaction *)

(** The constructor either refuses a keyword named [self] or stores the
    keywords and then sets [authorised]. *)
Lemma init_cases cls kwargs :
  ("self" ∈ dom kwargs ∧ Transaction.__init__ cls kwargs = Raise TypeError)
  ∨ (("self" ∉ dom kwargs)
     ∧ Transaction.__init__ cls kwargs
       = Ok {| ob_class := cls;
               __dict__ := <["authorised" := False_]> kwargs |}).
Proof.
  unfold Transaction.__init__, dict_update. rewrite (right_id_L ∅ (∪)).
  case_decide; [by left|by right].
Qed.



(** C10: a transaction built from any keyword arguments, [authorised]
    among them or not, has [authorised == False], and every other keyword
    is stored as given; the only keyword that prevents construction is
    [self], which raises [TypeError] and builds nothing. *)
Theorem init_authorised_false (cls : Class) (kwargs : gmap string pyval) :
  match Transaction.__init__ cls kwargs with
  | Ok t =>
      ("self" ∉ dom kwargs)
      ∧ ob_class t = cls
      ∧ __dict__ t !! "authorised" = Some False_
      ∧ ∀ k, k ≠ "authorised" → __dict__ t !! k = kwargs !! k
  | Raise e => e = TypeError ∧ "self" ∈ dom kwargs
  end.
Proof.
  destruct (init_cases cls kwargs) as [[Hself ->]|[Hself ->]]; [done|].
  split_and!; [done|done|apply lookup_insert_eq|].
  intros k Hk. by apply lookup_insert_ne.
Qed.

Example init_overrides_true :
  Transaction.__init__ Transaction.class
    (<["authorised" := True_]> {[ "type" := Str "Express" ]})
  = Ok {| ob_class := Transaction.class;
          __dict__ := <["authorised" := False_]> {[ "type" := Str "Express" ]} |}.
Proof.
  unfold Transaction.__init__. case_decide as Hself.
  - apply elem_of_dom in Hself as [v Hv].
    by rewrite lookup_insert_ne, lookup_singleton_ne in Hv.
  - unfold dict_update. rewrite (right_id_L ∅ (∪)).
    by rewrite insert_insert_eq.
Qed.

(** ** The gateway's dispatch on the transaction type *)

Lemma eq_str_true v s : eq_str v s = true → v = Str s.
Proof.
  destruct v as [[| | |s']|]; cbn; try done.
  intros H%String.eqb_eq. by subst.
Qed.

Lemma eq_str_refl s : eq_str (Str s) s = true.
Proof. cbn. apply String.eqb_refl. Qed.

(** C2: for a transaction of type ['Direct'], [PayPalGateway.authorise]
    returns [None] normally: no exception, no call to the processor, the
    transaction untouched. *)
Theorem authorise_Direct_returns_None (self : PayPalGateway.t) (w : World) :
  __dict__ (trans w) !! "type" = Some (Str "Direct") →
  PayPalGateway.authorise self w = (Ok RetNone, w).
Proof.
  intros Hty. unfold PayPalGateway.authorise.
  rewrite (bind_ok _ _ w (Str "Direct") w) by by apply getattr_some.
  cbn -[getattr ret].
  rewrite (bind_ok _ _ w (Str "Direct") w) by by apply getattr_some.
  reflexivity.
Qed.

Lemma authorise_Direct_returns_None_witness :
  let w := Doubles.world Transaction.class
             (<["authorised" := False_]> {[ "type" := Str "Direct" ]}) in
  __dict__ (trans w) !! "type" = Some (Str "Direct")
  ∧ PayPalGateway.authorise Doubles.gateway w = (Ok RetNone, w).
Proof.
  assert (H : __dict__ (trans (Doubles.world Transaction.class
             (<["authorised" := False_]> {[ "type" := Str "Direct" ]}))) !! "type"
             = Some (Str "Direct")) by reflexivity.
  split; [exact H|].
  exact (authorise_Direct_returns_None Doubles.gateway _ H).
Defined.

(** A transaction without a [type] attribute does not reach the
    comparison. *)
Lemma setupRedirect_no_type order self w :
  __dict__ (trans w) !! "type" = None →
  PayPalGateway.setupRedirect order self w = (Raise (AttributeError "type"), w).
Proof.
  intros Hty. unfold PayPalGateway.setupRedirect.
  by rewrite (bind_raise _ _ w (AttributeError "type") w)
    by by apply getattr_none.
Qed.

(** C6: for a transaction whose type is not ['Express'],
    [PayPalGateway.setupRedirect] leaves the transaction and the record of
    calls unchanged (so [authorised] and [token] are what they were), and
    the exception it raises is [NameError], not the validation error of the
    module: the name [PaymentTransactionValidationError] is bound nowhere. *)
Theorem setupRedirect_other_type
    (order : DictOrder) (self : PayPalGateway.t) (w : World) (type : pyval) :
  __dict__ (trans w) !! "type" = Some type →
  eq_str type "Express" = false →
  PayPalGateway.setupRedirect order self w
    = (Raise (NameError "PaymentTransactionValidationError"), w).
Proof.
  intros Hty Hne. unfold PayPalGateway.setupRedirect.
  rewrite (bind_ok _ _ w type w) by by apply getattr_some.
  by rewrite Hne.
Qed.

Lemma setupRedirect_other_type_witness :
  let w := Doubles.world Transaction.class
             (<["authorised" := False_]> {[ "type" := Str "Unknown" ]}) in
  __dict__ (trans w) !! "type" = Some (Str "Unknown")
  ∧ eq_str (Str "Unknown") "Express" = false
  ∧ PayPalGateway.setupRedirect sorted_order Doubles.gateway w
    = (Raise (NameError "PaymentTransactionValidationError"), w).
Proof.
  assert (H : __dict__ (trans (Doubles.world Transaction.class
             (<["authorised" := False_]> {[ "type" := Str "Unknown" ]}))) !! "type"
             = Some (Str "Unknown")) by reflexivity.
  split; [exact H|]. split; [reflexivity|].
  exact (setupRedirect_other_type sorted_order Doubles.gateway _ _ H eq_refl).
Defined.

(** ** Initialisation *)

Lemma getitem_unregistered {X} (d : gmap string X) (v : pyval) :
  (∀ s, v = Str s → s ∉ dom d) → getitem d v = Raise KeyError.
Proof.
  intros Hv. destruct v as [[| | |s]|]; cbn; try done.
  destruct (d !! s) as [x|] eqn:Hs; [|done].
  exfalso. apply (Hv s eq_refl), elem_of_dom. eauto.
Qed.

Lemma gateways_dom pkg order : dom (Payments.gateways pkg order) = {[ "PayPal" ]}.
Proof. unfold Payments.gateways. apply dom_singleton_L. Qed.

(** C3: when the value of [PAYMENT_API] (or [None], when the key is
    absent) is not a key of the dispatch table, [init_app] raises
    [PaymentsConfigurationError] and leaves the facade exactly as it was:
    no gateway is bound and neither constructor of the [paypal] package is
    consulted.  In particular a facade built with such an application has
    no [gateway] attribute. *)
Theorem init_app_unregistered_key
    (pkg : paypal.package) (order : DictOrder) (app : App) (self : Payments.t) :
  (∀ s, dict_get (config app) "PAYMENT_API" None_ = Str s →
        s ∉ dom (Payments.gateways pkg order)) →
  Payments.init_app pkg order app self = (Raise PaymentsConfigurationError, self)
  ∧ Payments.__init__ pkg order (Some app) Payments.fresh
    = (Raise PaymentsConfigurationError, Payments.fresh)
  ∧ Payments.gateway
      (Payments.__init__ pkg order (Some app) Payments.fresh).2 = None.
Proof.
  intros Hkey.
  assert (Hinit : ∀ self0, Payments.init_app pkg order app self0
                           = (Raise PaymentsConfigurationError, self0)).
  { intros self0. unfold Payments.init_app.
    apply bind_raise. unfold Payments._init_gateway, try_except_KeyError.
    rewrite (bind_raise _ _ self0 KeyError self0); [done|].
    unfold lift. by rewrite getitem_unregistered. }
  split_and!.
  - apply Hinit.
  - cbn [Payments.__init__]. apply Hinit.
  - cbn [Payments.__init__]. by rewrite Hinit.
Qed.

Lemma init_app_unregistered_key_witness :
  let app := {| config := {[ "PAYMENT_API" := Str "DoesNotExist" ]} |} in
  (∀ s, dict_get (config app) "PAYMENT_API" None_ = Str s →
        s ∉ dom (Payments.gateways Doubles.lenient sorted_order))
  ∧ Payments.init_app Doubles.lenient sorted_order app Payments.fresh
    = (Raise PaymentsConfigurationError, Payments.fresh)
  ∧ Payments.__init__ Doubles.lenient sorted_order (Some app) Payments.fresh
    = (Raise PaymentsConfigurationError, Payments.fresh)
  ∧ Payments.gateway
      (Payments.__init__ Doubles.lenient sorted_order (Some app) Payments.fresh).2
    = None.
Proof.
  assert (H : ∀ s,
    dict_get (config {| config := {[ "PAYMENT_API" := Str "DoesNotExist" ]} |})
      "PAYMENT_API" None_ = Str s →
    s ∉ dom (Payments.gateways Doubles.lenient sorted_order)).
  { intros s Hs. rewrite gateways_dom.
    unfold dict_get in Hs. cbn [config] in Hs.
    rewrite lookup_singleton_eq in Hs. cbn in Hs.
    injection Hs as <-. by intros ?%elem_of_singleton. }
  split; [exact H|].
  exact (init_app_unregistered_key Doubles.lenient sorted_order _ Payments.fresh H).
Defined.

Example init_app_absent_key (pkg : paypal.package) (order : DictOrder) :
  Payments.init_app pkg order {| config := ∅ |} Payments.fresh
  = (Raise PaymentsConfigurationError, Payments.fresh).
Proof. reflexivity. Qed.

(** The keyword arguments of [PayPalConfig] always name the four fields:
    a field missing from the application's configuration is passed as
    [None] (the environment as ['sandbox']), never left out. *)
Lemma config_kwargs_dom app :
  dom (PayPalGateway.config_kwargs app)
  = {[ "API_ENVIRONMENT"; "API_USERNAME"; "API_PASSWORD"; "API_SIGNATURE" ]}.
Proof.
  unfold PayPalGateway.config_kwargs.
  rewrite !dom_insert_L, dom_empty_L. set_solver.
Qed.

Lemma config_kwargs_missing app k :
  config app !! k = None → dict_get (config app) k None_ = None_.
Proof. intros H. unfold dict_get. by rewrite H. Qed.

(** C4: what [PayPalGateway(app)] does is decided by the [paypal]
    package alone.  An exception of the package other than [KeyError]
    leaves the constructor as it is, and when the package accepts the
    arguments the gateway is built; [PaymentsConfigurationError] is raised
    only in place of a [KeyError] of the package. *)
Theorem PayPalGateway_new_follows_package (pkg : paypal.package) (app : App) :
  match paypal.PayPalConfig pkg (PayPalGateway.config_kwargs app) with
  | Raise KeyError => PayPalGateway.new pkg app = Raise PaymentsConfigurationError
  | Raise e => PayPalGateway.new pkg app = Raise e
  | Ok c =>
      match paypal.PayPalInterface pkg c with
      | Raise KeyError => PayPalGateway.new pkg app = Raise PaymentsConfigurationError
      | Raise e => PayPalGateway.new pkg app = Raise e
      | Ok i => PayPalGateway.new pkg app = Ok {| PayPalGateway.interface := i |}
      end
  end.
Proof.
  unfold PayPalGateway.new, PayPalGateway.__init__, try_except_KeyError,
    PayPalGateway._init_API, bind, lift, raise.
  destruct (paypal.PayPalConfig pkg _) as [c|e].
  - destruct (paypal.PayPalInterface pkg c) as [i|e]; [done|]. by destruct e.
  - by destruct e.
Qed.

Example missing_credentials_accepted :
  PayPalGateway.new Doubles.lenient {| config := {[ "PAYMENT_API" := Str "PayPal" ]} |}
  = Ok Doubles.gateway.
Proof. reflexivity. Qed.

Example missing_credentials_other_exception :
  PayPalGateway.new Doubles.strict {| config := {[ "PAYMENT_API" := Str "PayPal" ]} |}
  = Raise (LibraryError "PayPalConfigError").
Proof. reflexivity. Qed.

(** ** The express set-up *)

(** What [_setupExpressTransfer] does, case by case. *)
Lemma setupExpressTransfer_cases order self w :
  let d := __dict__ (trans w) in
  let c1 := {| call_name := "set_express_checkout"; call_args := [];
               call_kwargs := PayPalGateway.params order d |} in
  match paypal.set_express_checkout (PayPalGateway.interface self)
          (PayPalGateway.params order d) with
  | Raise e =>
      PayPalGateway._setupExpressTransfer order self w
      = (Raise e, {| trans := trans w; calls := calls w ++ [c1] |})
  | Ok r =>
      match r !! "token" with
      | None =>
          PayPalGateway._setupExpressTransfer order self w
          = (Raise (AttributeError "token"),
             {| trans := trans w; calls := calls w ++ [c1] |})
      | Some token =>
          let c2 := {| call_name := "generate_express_checkout_redirect_url";
                       call_args := [VScalar token]; call_kwargs := ∅ |} in
          let t1 := {| ob_class := ob_class (trans w);
                       __dict__ := <["token" := VScalar token]> d |} in
          match paypal.generate_express_checkout_redirect_url
                  (PayPalGateway.interface self) (VScalar token) with
          | Raise e =>
              PayPalGateway._setupExpressTransfer order self w
              = (Raise e, {| trans := t1; calls := (calls w ++ [c1]) ++ [c2] |})
          | Ok url =>
              PayPalGateway._setupExpressTransfer order self w
              = (Ok RetTrans,
                 {| trans := {| ob_class := ob_class (trans w);
                                __dict__ := <["next" := url]> (<["token" := VScalar token]> d) |};
                    calls := (calls w ++ [c1]) ++ [c2] |})
          end
      end
  end.
Proof.
  unfold PayPalGateway._setupExpressTransfer, PayPalGateway.SetExpressCheckout,
    PayPalGateway.generate_express_checkout_redirect_url, bind, lift, ret,
    record_call, setattr, response_attr.
  cbn [trans calls __dict__ ob_class].
  destruct (paypal.set_express_checkout _ _) as [r|e]; [|done].
  destruct (r !! "token") as [token|]; [|done].
  cbn [trans calls __dict__ ob_class].
  by destruct (paypal.generate_express_checkout_redirect_url _ _) as [url|e].
Qed.

Lemma touches_only_same keys w w' : trans w' = trans w → touches_only keys w w'.
Proof. intros H. unfold touches_only. by rewrite H. Qed.

Lemma touches_only_refl keys w : touches_only keys w w.
Proof. by apply touches_only_same. Qed.

Lemma setupExpressTransfer_touches order self w :
  touches_only ["token"; "next"] w
    (PayPalGateway._setupExpressTransfer order self w).2.
Proof.
  pose proof (setupExpressTransfer_cases order self w) as H. cbn zeta in H.
  destruct (paypal.set_express_checkout _ _) as [r|e];
    [|rewrite H; by apply touches_only_same].
  destruct (r !! "token") as [token|]; [|rewrite H; by apply touches_only_same].
  destruct (paypal.generate_express_checkout_redirect_url _ _) as [url|e];
    rewrite H; (split; [done|]); intros k Hk; cbn;
    rewrite !not_elem_of_cons in Hk; destruct Hk as (? & ? & _);
    by rewrite ?lookup_insert_ne.
Qed.

Lemma gateway_setupRedirect_touches order self w :
  touches_only ["token"; "next"] w (PayPalGateway.setupRedirect order self w).2.
Proof.
  unfold PayPalGateway.setupRedirect, bind, getattr.
  destruct (__dict__ (trans w) !! "type") as [type|];
    [|apply touches_only_refl].
  destruct (eq_str type "Express");
    [apply setupExpressTransfer_touches|apply touches_only_refl].
Qed.

Lemma facade_setupRedirect_touches order g self w :
  Payments.gateway self = Some (PayPalGateway.bound order g)
  ∨ Payments.gateway self = None →
  touches_only ["token"; "next"] w (Payments.setupRedirect self w).2.
Proof.
  intros Hg. unfold Payments.setupRedirect, Payments.self_gateway, bind,
    call_validate.
  destruct (__dict__ (trans w) !! "validate"); [apply touches_only_refl|].
  destruct (cls_validate _ _); [|apply touches_only_refl].
  destruct Hg as [-> | ->]; [|apply touches_only_refl].
  cbn [ret PayPalGateway.bound gw_setupRedirect].
  apply gateway_setupRedirect_touches.
Qed.

(** C7: [setupRedirect], on the gateway and on a facade bound to it (or
    to nothing), returning normally or raising, leaves the class of the
    transaction and every field other than [token] and [next] as it was;
    [authorised] in particular keeps its value.  When it returns normally
    the value returned is the transaction and both [token] and [next] are
    set. *)
Theorem setupRedirect_keeps_authorised
    (order : DictOrder) (g : PayPalGateway.t) (self : Payments.t) (w : World) :
  Payments.gateway self = Some (PayPalGateway.bound order g)
  ∨ Payments.gateway self = None →
  let gw := PayPalGateway.setupRedirect order g w in
  let fa := Payments.setupRedirect self w in
  touches_only ["token"; "next"] w gw.2
  ∧ touches_only ["token"; "next"] w fa.2
  ∧ __dict__ (trans gw.2) !! "authorised" = __dict__ (trans w) !! "authorised"
  ∧ __dict__ (trans fa.2) !! "authorised" = __dict__ (trans w) !! "authorised"
  ∧ (∀ r, gw.1 = Ok r →
       r = RetTrans ∧ is_Some (__dict__ (trans gw.2) !! "token")
       ∧ is_Some (__dict__ (trans gw.2) !! "next")).
Proof.
  intros Hg gw fa.
  pose proof (gateway_setupRedirect_touches order g w) as Hgw.
  pose proof (facade_setupRedirect_touches order g self w Hg) as Hfa.
  split_and!; [done|done| | |].
  - apply Hgw. rewrite !not_elem_of_cons. split_and!; [done|done|apply not_elem_of_nil].
  - apply Hfa. rewrite !not_elem_of_cons. split_and!; [done|done|apply not_elem_of_nil].
  - subst gw. unfold PayPalGateway.setupRedirect, bind, getattr.
    destruct (__dict__ (trans w) !! "type") as [type|]; [|done].
    destruct (eq_str type "Express"); [|done].
    pose proof (setupExpressTransfer_cases order g w) as H. cbn zeta in H.
    destruct (paypal.set_express_checkout _ _) as [r|e];
      [|rewrite H; done].
    destruct (r !! "token") as [token|]; [|rewrite H; done].
    destruct (paypal.generate_express_checkout_redirect_url _ _) as [url|e];
      rewrite H; [|done].
    intros r0 [= <-]. cbn. split_and!; [done| |].
    + rewrite lookup_insert_ne by done. rewrite lookup_insert_eq. eauto.
    + rewrite lookup_insert_eq. eauto.
Qed.

(** ** The parameters of the outbound request *)

Lemma py_dict_snoc l p : py_dict (l ++ [p]) = <[p.1 := p.2]> (py_dict l).
Proof. unfold py_dict. by rewrite foldl_snoc. Qed.

(** Every entry of [dict(pairs)] comes from one of the pairs. *)
Lemma py_dict_lookup_Some l K v : py_dict l !! K = Some v → (K, v) ∈ l.
Proof.
  induction l as [|[K' v'] l IH] using rev_ind; [done|].
  rewrite py_dict_snoc, elem_of_app, list_elem_of_singleton. cbn.
  destruct (decide (K' = K)) as [->|Hne].
  - rewrite lookup_insert_eq. intros [= ->]. by right.
  - rewrite lookup_insert_ne by done. auto.
Qed.

(** Every key among the pairs is a key of [dict(pairs)]. *)
Lemma py_dict_lookup_is_Some l K v : (K, v) ∈ l → is_Some (py_dict l !! K).
Proof.
  induction l as [|[K' v'] l IH] using rev_ind; [by intros ?%elem_of_nil|].
  rewrite py_dict_snoc, elem_of_app, list_elem_of_singleton. cbn.
  destruct (decide (K' = K)) as [->|Hne].
  - rewrite lookup_insert_eq. eauto.
  - rewrite lookup_insert_ne by done. intros [?|[= ? ?]]; [auto|done].
Qed.

(** A key that occurs with one value only carries that value. *)
Lemma py_dict_lookup_unique l K v :
  (K, v) ∈ l → (∀ v', (K, v') ∈ l → v' = v) → py_dict l !! K = Some v.
Proof.
  intros Hin Huniq. destruct (py_dict_lookup_is_Some l K v Hin) as [v' Hv'].
  rewrite Hv'. f_equal. by apply Huniq, py_dict_lookup_Some.
Qed.

Lemma elem_of_iteritems order d k v :
  (k, v) ∈ iteritems order d ↔ d !! k = Some v.
Proof. by rewrite (iteritems_perm order d), elem_of_map_to_list. Qed.

Lemma elem_of_translated order d K v :
  (K, v) ∈ (λ kv : string * pyval, (keycase kv.1, kv.2)) <$> iteritems order d
  ↔ ∃ k, keycase k = K ∧ d !! k = Some v.
Proof.
  rewrite list_elem_of_fmap. split.
  - intros [[k v'] [[= -> ->] Hin]]. exists k.
    by rewrite <-elem_of_iteritems.
  - intros (k & <- & Hk). exists (k, v). by rewrite elem_of_iteritems.
Qed.

(** C8 (as stated, refuted): with the two fields [a_b] and [ab], which
    both translate to [AB], whatever the order in which the dictionary is
    enumerated one of the two is not sent with its value under its
    translated name. *)
Lemma params_collision :
  ∃ d : gmap string pyval, ∀ order : DictOrder, ∃ k v,
    d !! k = Some v ∧ PayPalGateway.params order d !! keycase k ≠ Some v.
Proof.
  exists (<["a_b" := VScalar (SInt 1)]> {[ "ab" := VScalar (SInt 2) ]}).
  intros order.
  destruct (decide (PayPalGateway.params order
              (<["a_b" := VScalar (SInt 1)]> {[ "ab" := VScalar (SInt 2) ]})
              !! "AB" = Some (VScalar (SInt 1)))) as [Heq|Hne].
  - exists "ab", (VScalar (SInt 2)). split.
    + by rewrite lookup_insert_ne, lookup_singleton_eq.
    + change (keycase "ab") with "AB". by rewrite Heq.
  - exists "a_b", (VScalar (SInt 1)). split.
    + by rewrite lookup_insert_eq.
    + exact Hne.
Qed.

(** C8 (amended): the first call of [_setupExpressTransfer] is
    [set_express_checkout] with the keyword arguments [params]; every
    parameter is the translated name of a field and carries that field's
    value; the translated name of every field is a parameter; a field
    whose translated name no other field shares is sent with its own
    value; and the transaction keeps all its field names, with their
    values except for [token] and [next]. *)
Theorem express_params_translation
    (order : DictOrder) (self : PayPalGateway.t) (w : World) :
  let d := __dict__ (trans w) in
  let sent := PayPalGateway.params order d in
  let w' := (PayPalGateway._setupExpressTransfer order self w).2 in
  (∃ rest, calls w' = (calls w ++
             {| call_name := "set_express_checkout"; call_args := [];
                call_kwargs := sent |} :: rest)%list)
  ∧ (∀ K v, sent !! K = Some v → ∃ k, keycase k = K ∧ d !! k = Some v)
  ∧ (∀ k, is_Some (d !! k) → is_Some (sent !! keycase k))
  ∧ (∀ k v, d !! k = Some v →
       (∀ k', is_Some (d !! k') → keycase k' = keycase k → k' = k) →
       sent !! keycase k = Some v)
  ∧ (∀ k, is_Some (d !! k) → is_Some (__dict__ (trans w') !! k))
  ∧ touches_only ["token"; "next"] w w'.
Proof.
  intros d sent w'. split_and!.
  - subst w'. pose proof (setupExpressTransfer_cases order self w) as H.
    cbn zeta in H. fold d in H. fold sent in H.
    destruct (paypal.set_express_checkout _ _) as [r|e];
      [|rewrite H; by exists []].
    destruct (r !! "token") as [token|]; [|rewrite H; by exists []].
    destruct (paypal.generate_express_checkout_redirect_url _ _) as [url|e];
      rewrite H; cbn; rewrite <-app_assoc; eauto.
  - intros K v HK. by apply (elem_of_translated order), py_dict_lookup_Some.
  - intros k [v Hk]. apply (py_dict_lookup_is_Some _ _ v).
    apply elem_of_translated. eauto.
  - intros k v Hk Hinj. apply py_dict_lookup_unique.
    + apply elem_of_translated. eauto.
    + intros v' (k' & Hkk' & Hk')%elem_of_translated.
      assert (k' = k) as -> by (apply Hinj; eauto).
      congruence.
  - intros k Hk.
    destruct (setupExpressTransfer_touches order self w) as [_ Hkeep].
    fold w' in Hkeep.
    destruct (decide (k ∈ ["token"; "next"])) as [Hin|Hout];
      [|by rewrite Hkeep].
    subst w'. pose proof (setupExpressTransfer_cases order self w) as H.
    cbn zeta in H.
    destruct (paypal.set_express_checkout _ _) as [r|e]; [|by rewrite H].
    destruct (r !! "token") as [token|]; [|by rewrite H].
    destruct (paypal.generate_express_checkout_redirect_url _ _) as [url|e];
      rewrite H; cbn.
    + destruct (decide (k = "next")) as [->|]; [rewrite lookup_insert_eq; eauto|].
      rewrite lookup_insert_ne by done.
      destruct (decide (k = "token")) as [->|]; [rewrite lookup_insert_eq; eauto|].
      by rewrite lookup_insert_ne.
    + destruct (decide (k = "token")) as [->|]; [rewrite lookup_insert_eq; eauto|].
      by rewrite lookup_insert_ne.
  - apply setupExpressTransfer_touches.
Qed.

Example keycase_examples :
  keycase "return_url" = "RETURNURL" ∧ keycase "amt" = "AMT"
  ∧ keycase "a_b" = keycase "ab".
Proof. by split_and!. Qed.

Example params_of_a_transaction :
  PayPalGateway.params sorted_order
    (<["authorised" := False_]>
       (<["return_url" := Str "https://shop.example/back"]>
          {[ "type" := Str "Express" ]}))
  = <["AUTHORISED" := False_]>
      (<["RETURNURL" := Str "https://shop.example/back"]>
         {[ "TYPE" := Str "Express" ]}).
Proof. vm_compute. reflexivity. Qed.

(** ** The round trip: set-up, payer approval, authorisation *)

(** A normal return of [_authoriseExpress]: the three fields were
    there, the processor answered, and the answer had an identifier. *)
Lemma authoriseExpress_ok self action w r w' :
  PayPalGateway._authoriseExpress self action w = (Ok r, w') →
  ∃ token payerid amt resp tid,
    __dict__ (trans w) !! "token" = Some token
    ∧ __dict__ (trans w) !! "payerid" = Some payerid
    ∧ __dict__ (trans w) !! "amt" = Some amt
    ∧ paypal.do_express_checkout_payment (PayPalGateway.interface self) token
        (PayPalGateway.payment_kwargs action payerid amt) = Ok resp
    ∧ resp !! "TRANSACTIONID" = Some tid
    ∧ r = RetTrans
    ∧ __dict__ (trans w')
      = <["authorised" := True_]>
          (<["raw" := VResponse resp]>
             (<["transactionid" := VScalar tid]> (__dict__ (trans w)))).
Proof.
  unfold PayPalGateway._authoriseExpress, PayPalGateway.DoExpressCheckoutPayment,
    bind, getattr, lift, ret, record_call, setattr, response_attr.
  destruct (__dict__ (trans w) !! "token") as [token|]; [|done].
  destruct (__dict__ (trans w) !! "payerid") as [payerid|]; [|done].
  destruct (__dict__ (trans w) !! "amt") as [amt|]; [|done].
  cbn [trans calls __dict__ ob_class].
  destruct (paypal.do_express_checkout_payment _ _ _) as [resp|e] eqn:Hpay;
    [|done].
  destruct (resp !! "TRANSACTIONID") as [tid|] eqn:Htid; [|done].
  cbn [trans calls __dict__ ob_class].
  intros [= <- <-]. exists token, payerid, amt, resp, tid. by split_and!.
Qed.

(** A normal return of the gateway's [setupRedirect]: the type was
    ['Express'] and [token] and [next] were added. *)
Lemma gateway_setupRedirect_ok order self w r w' :
  PayPalGateway.setupRedirect order self w = (Ok r, w') →
  ∃ token url,
    __dict__ (trans w) !! "type" = Some (Str "Express")
    ∧ r = RetTrans
    ∧ ob_class (trans w') = ob_class (trans w)
    ∧ __dict__ (trans w')
      = <["next" := url]> (<["token" := token]> (__dict__ (trans w))).
Proof.
  unfold PayPalGateway.setupRedirect, bind, getattr.
  destruct (__dict__ (trans w) !! "type") as [type|] eqn:Hty; [|done].
  destruct (eq_str type "Express") eqn:Heq; [|done].
  apply eq_str_true in Heq as ->.
  pose proof (setupExpressTransfer_cases order self w) as H. cbn zeta in H.
  destruct (paypal.set_express_checkout _ _) as [resp|e];
    [|by rewrite H].
  destruct (resp !! "token") as [token|]; [|by rewrite H].
  destruct (paypal.generate_express_checkout_redirect_url _ _) as [url|e];
    rewrite H; [|done].
  intros [= <- <-]. by exists (VScalar token), url.
Qed.

Lemma facade_delegates self g w :
  Payments.gateway self = Some g →
  (call_validate w).1 = Ok true →
  Payments.setupRedirect self w = gw_setupRedirect g w
  ∧ Payments.authorise self w = gw_authorise g w.
Proof.
  intros Hg Hv%call_validate_returns.
  unfold Payments.setupRedirect, Payments.authorise, Payments.self_gateway,
    bind.
  by rewrite Hv, Hg.
Qed.

(** The facade returns normally only when [validate()] returned
    [True]. *)
Lemma facade_ok_validated self w r w' :
  Payments.setupRedirect self w = (Ok r, w')
  ∨ Payments.authorise self w = (Ok r, w') →
  (call_validate w).1 = Ok true.
Proof.
  unfold Payments.setupRedirect, Payments.authorise, bind.
  destruct (call_validate w) as [[[]|e] w0]; [done| |];
    by intros [?|?].
Qed.

(** C5 (amended): a transaction built by the constructor has
    [authorised == False]; when [setupRedirect] returns normally on it the
    type was ['Express'], the transaction is returned with [token] and
    [next] set and [authorised] still [False]; it is still [False] once
    [payerid] is added; and when [authorise] then returns normally the
    transaction is returned with [authorised == True], with [raw] the
    processor's response and [transactionid] the [TRANSACTIONID] of that
    response, whatever that identifier is. *)
Theorem express_round_trip
    (order : DictOrder) (g : PayPalGateway.t) (self : Payments.t)
    (kwargs : gmap string pyval) (t : Object) (payer : pyval)
    (r1 r2 : Ret) (w1 w2 : World) :
  Payments.gateway self = Some (PayPalGateway.bound order g) →
  Transaction.__init__ Transaction.class kwargs = Ok t →
  Payments.setupRedirect self {| trans := t; calls := [] |} = (Ok r1, w1) →
  Payments.authorise self (setattr "payerid" payer w1).2 = (Ok r2, w2) →
  __dict__ t !! "authorised" = Some False_
  ∧ __dict__ t !! "type" = Some (Str "Express")
  ∧ (r1 = RetTrans
     ∧ is_Some (__dict__ (trans w1) !! "token")
     ∧ is_Some (__dict__ (trans w1) !! "next")
     ∧ __dict__ (trans w1) !! "authorised" = Some False_)
  ∧ __dict__ (trans (setattr "payerid" payer w1).2) !! "authorised" = Some False_
  ∧ r2 = RetTrans
  ∧ __dict__ (trans w2) !! "authorised" = Some True_
  ∧ ∃ token amt resp tid,
      paypal.do_express_checkout_payment (PayPalGateway.interface g) token
        (PayPalGateway.payment_kwargs (Str "Sale") payer amt) = Ok resp
      ∧ resp !! "TRANSACTIONID" = Some tid
      ∧ __dict__ (trans w2) !! "transactionid" = Some (VScalar tid)
      ∧ __dict__ (trans w2) !! "raw" = Some (VResponse resp).
Proof.
  intros Hg Hinit Hsetup Hauth.
  assert (Hcls : ob_class t = Transaction.class
                 ∧ __dict__ t !! "authorised" = Some False_).
  { destruct (init_cases Transaction.class kwargs) as [[_ Hi]|[_ Hi]];
      rewrite Hi in Hinit; [done|].
    injection Hinit as <-. split; [done|apply lookup_insert_eq]. }
  destruct Hcls as [Hcls Hfalse].
  destruct (facade_delegates self _ {| trans := t; calls := [] |} Hg) as [Hs _].
  { eapply facade_ok_validated. left. exact Hsetup. }
  rewrite Hs in Hsetup. cbn [gw_setupRedirect PayPalGateway.bound] in Hsetup.
  apply gateway_setupRedirect_ok in Hsetup
    as (token & url & Hty & -> & Hcls1 & Hd1).
  cbn [trans __dict__ ob_class] in Hty, Hcls1, Hd1.
  set (w1p := (setattr "payerid" payer w1).2) in *.
  assert (Hdp : __dict__ (trans w1p) = <["payerid" := payer]> (__dict__ (trans w1)))
    by reflexivity.
  assert (Hclsp : ob_class (trans w1p) = Transaction.class)
    by (cbn; congruence).
  destruct (facade_delegates self _ w1p Hg) as [_ Ha].
  { eapply facade_ok_validated. right. exact Hauth. }
  rewrite Ha in Hauth. cbn [gw_authorise PayPalGateway.bound] in Hauth.
  assert (Htyp : __dict__ (trans w1p) !! "type" = Some (Str "Express")).
  { rewrite Hdp, Hd1. by rewrite !lookup_insert_ne. }
  unfold PayPalGateway.authorise in Hauth.
  rewrite (bind_ok _ _ w1p (Str "Express") w1p) in Hauth
    by by apply getattr_some.
  rewrite eq_str_refl in Hauth.
  apply authoriseExpress_ok in Hauth
    as (token' & payerid & amt & resp & tid & Htok & Hpid & Hamt & Hpay & Htid
        & -> & Hd2).
  assert (payerid = payer) as ->.
  { rewrite Hdp, lookup_insert_eq in Hpid. congruence. }
  split_and!; try done.
  - rewrite Hd1. rewrite lookup_insert_ne by done.
    rewrite lookup_insert_eq. eauto.
  - rewrite Hd1. rewrite lookup_insert_eq. eauto.
  - rewrite Hd1. by rewrite !lookup_insert_ne.
  - rewrite Hdp, Hd1. by rewrite !lookup_insert_ne.
  - rewrite Hd2. by rewrite lookup_insert_eq.
  - exists token', amt, resp, tid. split_and!; [done|done| |].
    + rewrite Hd2. rewrite !lookup_insert_ne by done.
      by rewrite lookup_insert_eq.
    + rewrite Hd2. rewrite lookup_insert_ne by done.
      by rewrite lookup_insert_eq.
Qed.

Lemma express_round_trip_witness :
  let self := Doubles.facade (PayPalGateway.bound sorted_order Doubles.gateway) in
  let kwargs : gmap string pyval :=
    <["amt" := VScalar (SInt 10)]> {[ "type" := Str "Express" ]} in
  let t := {| ob_class := Transaction.class;
              __dict__ := <["authorised" := False_]> kwargs |} in
  let w1 := (Payments.setupRedirect self {| trans := t; calls := [] |}).2 in
  let w1p := (setattr "payerid" (Str "PAYER1") w1).2 in
  let w2 := (Payments.authorise self w1p).2 in
  (Payments.gateway self = Some (PayPalGateway.bound sorted_order Doubles.gateway)
   ∧ Transaction.__init__ Transaction.class kwargs = Ok t
   ∧ Payments.setupRedirect self {| trans := t; calls := [] |} = (Ok RetTrans, w1)
   ∧ Payments.authorise self w1p = (Ok RetTrans, w2))
  ∧ __dict__ (trans w1) !! "authorised" = Some False_
  ∧ __dict__ (trans w2) !! "authorised" = Some True_
  ∧ __dict__ (trans w2) !! "transactionid" = Some (Str "TX-1").
Proof.
  intros self kwargs t w1 w1p w2.
  assert (H1 : Payments.gateway self
               = Some (PayPalGateway.bound sorted_order Doubles.gateway))
    by reflexivity.
  assert (H2 : Transaction.__init__ Transaction.class kwargs = Ok t)
    by (vm_compute; reflexivity).
  assert (H3 : Payments.setupRedirect self {| trans := t; calls := [] |}
               = (Ok RetTrans, w1)) by (vm_compute; reflexivity).
  assert (H4 : Payments.authorise self w1p = (Ok RetTrans, w2))
    by (vm_compute; reflexivity).
  split; [by split_and!|].
  destruct (express_round_trip sorted_order Doubles.gateway self kwargs t
              (Str "PAYER1") RetTrans RetTrans w1 w2 H1 H2 H3 H4)
    as (_ & _ & (_ & _ & _ & Hf) & _ & _ & Ht & token & amt & resp & tid
        & Hpay & Htid & Hid & _).
  split_and!; [exact Hf|exact Ht|].
  cbn in Hpay. injection Hpay as <-.
  rewrite lookup_singleton_eq in Htid. injection Htid as <-. exact Hid.
Defined.

(** C5 (as stated, refuted): with a processor whose payment response
    carries an empty [TRANSACTIONID], the round trip succeeds at every
    step and ends with [authorised == True] and [transactionid == ''];
    nothing in the gateway looks at the identifier. *)
Lemma round_trip_empty_transactionid :
  let self :=
    Doubles.facade (PayPalGateway.bound sorted_order Doubles.blank_gateway) in
  let kwargs : gmap string pyval :=
    <["amt" := VScalar (SInt 10)]> {[ "type" := Str "Express" ]} in
  let t := {| ob_class := Transaction.class;
              __dict__ := <["authorised" := False_]> kwargs |} in
  let w1 := (Payments.setupRedirect self {| trans := t; calls := [] |}).2 in
  let w1p := (setattr "payerid" (Str "PAYER1") w1).2 in
  let w2 := (Payments.authorise self w1p).2 in
  Transaction.__init__ Transaction.class kwargs = Ok t
  ∧ Payments.setupRedirect self {| trans := t; calls := [] |} = (Ok RetTrans, w1)
  ∧ Payments.authorise self w1p = (Ok RetTrans, w2)
  ∧ __dict__ (trans w2) !! "authorised" = Some True_
  ∧ __dict__ (trans w2) !! "transactionid" = Some (Str "").
Proof. vm_compute. by split_and!. Qed.

(** The field read by [_authoriseExpress] is [amt]: a transaction that
    carries the amount under another name does not get through. *)
Example authorise_without_amt :
  let self := Doubles.facade (PayPalGateway.bound sorted_order Doubles.gateway) in
  let t := {| ob_class := Transaction.class;
              __dict__ := <["authorised" := False_]>
                            (<["amount" := VScalar (SInt 10)]>
                               {[ "type" := Str "Express" ]}) |} in
  let w1 := (Payments.setupRedirect self {| trans := t; calls := [] |}).2 in
  let w1p := (setattr "payerid" (Str "PAYER1") w1).2 in
  Payments.authorise self w1p = (Raise (AttributeError "amt"), w1p).
Proof. vm_compute. reflexivity. Qed.

Lemma setupRedirect_keeps_authorised_witness :
  let self := Doubles.facade (PayPalGateway.bound sorted_order Doubles.gateway) in
  let w := Doubles.world Transaction.class
             (<["authorised" := False_]> {[ "type" := Str "Express" ]}) in
  (Payments.gateway self = Some (PayPalGateway.bound sorted_order Doubles.gateway)
   ∨ Payments.gateway self = None)
  ∧ (Payments.setupRedirect self w).1 = Ok RetTrans
  ∧ __dict__ (trans (Payments.setupRedirect self w).2) !! "authorised"
    = Some False_
  ∧ __dict__ (trans (PayPalGateway.setupRedirect sorted_order Doubles.gateway w).2)
      !! "authorised" = Some False_.
Proof.
  intros self w.
  assert (Hg : Payments.gateway self
               = Some (PayPalGateway.bound sorted_order Doubles.gateway)
               ∨ Payments.gateway self = None) by (left; reflexivity).
  split; [exact Hg|]. split; [vm_compute; reflexivity|].
  destruct (setupRedirect_keeps_authorised sorted_order Doubles.gateway self w Hg)
    as (_ & _ & Hgw & Hfa & _).
  split; [rewrite Hfa|rewrite Hgw]; reflexivity.
Defined.

(** * Further properties of the code *)

(** ** Authorisation, case by case *)

(** What [_authoriseExpress] does, case by case. *)
Lemma authoriseExpress_cases self action w :
  let d := __dict__ (trans w) in
  match d !! "token" with
  | None =>
      PayPalGateway._authoriseExpress self action w
      = (Raise (AttributeError "token"), w)
  | Some token =>
      match d !! "payerid" with
      | None =>
          PayPalGateway._authoriseExpress self action w
          = (Raise (AttributeError "payerid"), w)
      | Some payerid =>
          match d !! "amt" with
          | None =>
              PayPalGateway._authoriseExpress self action w
              = (Raise (AttributeError "amt"), w)
          | Some amt =>
              let kw := PayPalGateway.payment_kwargs action payerid amt in
              let c := {| call_name := "do_express_checkout_payment";
                          call_args := [token]; call_kwargs := kw |} in
              let w1 := {| trans := trans w; calls := (calls w ++ [c])%list |} in
              match paypal.do_express_checkout_payment
                      (PayPalGateway.interface self) token kw with
              | Raise e =>
                  PayPalGateway._authoriseExpress self action w = (Raise e, w1)
              | Ok r =>
                  match r !! "TRANSACTIONID" with
                  | None =>
                      PayPalGateway._authoriseExpress self action w
                      = (Raise (AttributeError "TRANSACTIONID"), w1)
                  | Some tid =>
                      PayPalGateway._authoriseExpress self action w
                      = (Ok RetTrans,
                         {| trans :=
                              {| ob_class := ob_class (trans w);
                                 __dict__ :=
                                   <["authorised" := True_]>
                                     (<["raw" := VResponse r]>
                                        (<["transactionid" := VScalar tid]> d)) |};
                            calls := (calls w ++ [c])%list |})
                  end
              end
          end
      end
  end.
Proof.
  unfold PayPalGateway._authoriseExpress, PayPalGateway.DoExpressCheckoutPayment,
    bind, getattr, lift, ret, record_call, setattr, response_attr.
  cbn zeta.
  destruct (__dict__ (trans w) !! "token") as [token|]; [|done].
  destruct (__dict__ (trans w) !! "payerid") as [payerid|]; [|done].
  destruct (__dict__ (trans w) !! "amt") as [amt|]; [|done].
  cbn [trans calls __dict__ ob_class].
  destruct (paypal.do_express_checkout_payment _ _ _) as [r|e]; [|done].
  by destruct (r !! "TRANSACTIONID") as [tid|].
Qed.

(** The dispatch of [authorise] on the type. *)
Lemma authorise_dispatch self w :
  match __dict__ (trans w) !! "type" with
  | None => PayPalGateway.authorise self w = (Raise (AttributeError "type"), w)
  | Some type =>
      if eq_str type "Express" then
        PayPalGateway.authorise self w
        = PayPalGateway._authoriseExpress self (Str "Sale") w
      else if eq_str type "Direct" then
        PayPalGateway.authorise self w = (Ok RetNone, w)
      else
        PayPalGateway.authorise self w
        = (Raise (NameError "PaymentTransactionValidationError"), w)
  end.
Proof.
  unfold PayPalGateway.authorise, bind, getattr.
  destruct (__dict__ (trans w) !! "type") as [type|] eqn:Hty; [|done].
  destruct (eq_str type "Express"); [done|].
  rewrite Hty. by destruct (eq_str type "Direct").
Qed.

Ltac authorise_cases self w H :=
  pose proof (authorise_dispatch self w) as H;
  destruct (__dict__ (trans w) !! "type") as [?type|] eqn:?Hty;
    [destruct (eq_str type "Express") eqn:?Hexp;
       [|destruct (eq_str type "Direct") eqn:?Hdir]|].

Ltac express_cases self action w H :=
  pose proof (authoriseExpress_cases self action w) as H; cbn zeta in H;
  destruct (__dict__ (trans w) !! "token") as [?token|] eqn:?Htok;
    [destruct (__dict__ (trans w) !! "payerid") as [?payerid|] eqn:?Hpid;
       [destruct (__dict__ (trans w) !! "amt") as [?amt|] eqn:?Hamt;
          [destruct (paypal.do_express_checkout_payment _ _ _) as [?resp|?e]
             eqn:?Hpay;
             [destruct (resp !! "TRANSACTIONID") as [?tid|] eqn:?Htid|]|]|]|].

(** X1: [PayPalGateway.authorise] is all or nothing on the transaction.
    When it returns the transaction, [authorised] is [True], [raw] and
    [transactionid] are set and no other field has changed; in every other
    case (an exception of any kind, or the [None] of the ['Direct']
    branch) the transaction is exactly what it was. *)
Theorem authorise_all_or_nothing (self : PayPalGateway.t) (w : World) :
  match PayPalGateway.authorise self w with
  | (Ok RetTrans, w') =>
      __dict__ (trans w') !! "authorised" = Some True_
      ∧ is_Some (__dict__ (trans w') !! "transactionid")
      ∧ is_Some (__dict__ (trans w') !! "raw")
      ∧ touches_only ["transactionid"; "raw"; "authorised"] w w'
  | (_, w') => trans w' = trans w
  end.
Proof.
  authorise_cases self w H; rewrite H; try done.
  express_cases self (Str "Sale") w HE; rewrite HE; try done.
  cbn [trans __dict__]. split_and!.
  - by rewrite lookup_insert_eq.
  - rewrite !lookup_insert_ne by done. rewrite lookup_insert_eq. eauto.
  - rewrite lookup_insert_ne by done. rewrite lookup_insert_eq. eauto.
  - split; [done|]. intros k Hk. cbn.
    rewrite !not_elem_of_cons in Hk. destruct Hk as (? & ? & ? & _).
    by rewrite !lookup_insert_ne.
Qed.

(** X2: for an ['Express'] transaction that lacks [token], [payerid] or
    [amt], [authorise] raises [AttributeError] for the first of the three
    that is missing, before the processor is contacted: the record of calls
    and the transaction are unchanged. *)
Theorem authorise_missing_field (self : PayPalGateway.t) (w : World) :
  __dict__ (trans w) !! "type" = Some (Str "Express") →
  __dict__ (trans w) !! "token" = None
  ∨ __dict__ (trans w) !! "payerid" = None
  ∨ __dict__ (trans w) !! "amt" = None →
  ∃ a,
    PayPalGateway.authorise self w = (Raise (AttributeError a), w)
    ∧ __dict__ (trans w) !! a = None
    ∧ ((a = "token")
       ∨ (a = "payerid" ∧ is_Some (__dict__ (trans w) !! "token"))
       ∨ (a = "amt" ∧ is_Some (__dict__ (trans w) !! "token")
          ∧ is_Some (__dict__ (trans w) !! "payerid"))).
Proof.
  intros Hty Hmiss.
  pose proof (authorise_dispatch self w) as H. rewrite Hty, eq_str_refl in H.
  rewrite H. clear H.
  pose proof (authoriseExpress_cases self (Str "Sale") w) as HE. cbn zeta in HE.
  destruct (__dict__ (trans w) !! "token") as [token|] eqn:Htok;
    [|exists "token"; by split_and!; [| |left]].
  destruct (__dict__ (trans w) !! "payerid") as [payerid|] eqn:Hpid;
    [|exists "payerid"; split_and!; [done|done|right; left; eauto]].
  destruct (__dict__ (trans w) !! "amt") as [amt|] eqn:Hamt;
    [|exists "amt"; split_and!; [done|done|right; right; eauto]].
  by destruct Hmiss as [?|[?|?]].
Qed.

Lemma authorise_missing_field_witness :
  let d : gmap string pyval :=
    <["authorised" := False_]>
    (<["type" := Str "Express"]>
    (<["token" := Str "EC-1"]>
    (<["payerid" := Str "PAYER1"]>
    {[ "amount" := VScalar (SInt 10) ]}))) in
  let w := Doubles.world Transaction.class d in
  __dict__ (trans w) !! "type" = Some (Str "Express")
  ∧ __dict__ (trans w) !! "amt" = None
  ∧ PayPalGateway.authorise Doubles.gateway w = (Raise (AttributeError "amt"), w).
Proof.
  intros d w.
  assert (Hty : __dict__ (trans w) !! "type" = Some (Str "Express"))
    by (vm_compute; reflexivity).
  assert (Hamt : __dict__ (trans w) !! "amt" = None) by (vm_compute; reflexivity).
  split; [exact Hty|]. split; [exact Hamt|].
  destruct (authorise_missing_field Doubles.gateway w Hty
              (or_intror (or_intror Hamt)))
    as (a & Ha & _ & [->|[[-> _]|[-> _]]]); [| |exact Ha].
  - rewrite Ha. vm_compute in Ha. discriminate Ha.
  - rewrite Ha. vm_compute in Ha. discriminate Ha.
Defined.

(** What an ['Express'] transaction with its three fields makes
    [authorise] do. *)
Lemma authorise_express_ready self w token payerid amt :
  __dict__ (trans w) !! "type" = Some (Str "Express") →
  __dict__ (trans w) !! "token" = Some token →
  __dict__ (trans w) !! "payerid" = Some payerid →
  __dict__ (trans w) !! "amt" = Some amt →
  let kw := PayPalGateway.payment_kwargs (Str "Sale") payerid amt in
  let c := {| call_name := "do_express_checkout_payment";
              call_args := [token]; call_kwargs := kw |} in
  let w1 := {| trans := trans w; calls := (calls w ++ [c])%list |} in
  match paypal.do_express_checkout_payment (PayPalGateway.interface self)
          token kw with
  | Raise e => PayPalGateway.authorise self w = (Raise e, w1)
  | Ok r =>
      match r !! "TRANSACTIONID" with
      | None =>
          PayPalGateway.authorise self w
          = (Raise (AttributeError "TRANSACTIONID"), w1)
      | Some tid =>
          PayPalGateway.authorise self w
          = (Ok RetTrans,
             {| trans :=
                  {| ob_class := ob_class (trans w);
                     __dict__ :=
                       <["authorised" := True_]>
                         (<["raw" := VResponse r]>
                            (<["transactionid" := VScalar tid]>
                               (__dict__ (trans w)))) |};
                calls := (calls w ++ [c])%list |})
      end
  end.
Proof.
  intros Hty Htok Hpid Hamt.
  pose proof (authorise_dispatch self w) as H. rewrite Hty, eq_str_refl in H.
  rewrite H.
  pose proof (authoriseExpress_cases self (Str "Sale") w) as HE. cbn zeta in HE.
  by rewrite Htok, Hpid, Hamt in HE.
Qed.

(** X3: for an ['Express'] transaction carrying [token], [payerid] and
    [amt], [authorise] sends exactly one request to the processor,
    whatever the processor answers and whatever [authorised] is: the token
    as positional argument, the payer and the amount of the transaction,
    and the payment action ['Sale'] and the currency ['JPY'], neither of
    which is taken from the transaction. *)
Theorem authorise_payment_request
    (self : PayPalGateway.t) (w : World) (token payerid amt : pyval) :
  __dict__ (trans w) !! "type" = Some (Str "Express") →
  __dict__ (trans w) !! "token" = Some token →
  __dict__ (trans w) !! "payerid" = Some payerid →
  __dict__ (trans w) !! "amt" = Some amt →
  ∃ kw,
    calls (PayPalGateway.authorise self w).2
    = (calls w ++ [{| call_name := "do_express_checkout_payment";
                      call_args := [token]; call_kwargs := kw |}])%list
    ∧ kw !! "PAYERID" = Some payerid
    ∧ kw !! "AMT" = Some amt
    ∧ kw !! "PAYMENTACTION" = Some (Str "Sale")
    ∧ kw !! "CURRENCYCODE" = Some (Str "JPY")
    ∧ dom kw = {[ "PAYMENTACTION"; "PAYERID"; "AMT"; "CURRENCYCODE" ]}.
Proof.
  intros Hty Htok Hpid Hamt.
  exists (PayPalGateway.payment_kwargs (Str "Sale") payerid amt).
  split.
  - pose proof (authorise_express_ready self w _ _ _ Hty Htok Hpid Hamt) as H.
    cbn zeta in H.
    destruct (paypal.do_express_checkout_payment _ _ _) as [r|e];
      [|by rewrite H].
    destruct (r !! "TRANSACTIONID"); by rewrite H.
  - unfold PayPalGateway.payment_kwargs. split_and!.
    + rewrite lookup_insert_ne by done. by rewrite lookup_insert_eq.
    + rewrite !lookup_insert_ne by done. by rewrite lookup_insert_eq.
    + by rewrite lookup_insert_eq.
    + rewrite !lookup_insert_ne by done. by rewrite lookup_insert_eq.
    + rewrite !dom_insert_L, dom_empty_L. by rewrite (right_id_L ∅ (∪)).
Qed.

Lemma authorise_payment_request_witness :
  let w := Doubles.world Transaction.class
             (<["currencycode" := Str "EUR"]> Failing.approved) in
  (__dict__ (trans w) !! "type" = Some (Str "Express")
   ∧ __dict__ (trans w) !! "token" = Some (Str "EC-1")
   ∧ __dict__ (trans w) !! "payerid" = Some (Str "PAYER1")
   ∧ __dict__ (trans w) !! "amt" = Some (VScalar (SInt 10)))
  ∧ ∃ kw,
      calls (PayPalGateway.authorise Doubles.gateway w).2
      = [{| call_name := "do_express_checkout_payment";
            call_args := [Str "EC-1"]; call_kwargs := kw |}]
      ∧ kw !! "CURRENCYCODE" = Some (Str "JPY").
Proof.
  intros w.
  assert (H1 : __dict__ (trans w) !! "type" = Some (Str "Express"))
    by (vm_compute; reflexivity).
  assert (H2 : __dict__ (trans w) !! "token" = Some (Str "EC-1"))
    by (vm_compute; reflexivity).
  assert (H3 : __dict__ (trans w) !! "payerid" = Some (Str "PAYER1"))
    by (vm_compute; reflexivity).
  assert (H4 : __dict__ (trans w) !! "amt" = Some (VScalar (SInt 10)))
    by (vm_compute; reflexivity).
  split; [by split_and!|].
  destruct (authorise_payment_request Doubles.gateway w _ _ _ H1 H2 H3 H4)
    as (kw & Hc & _ & _ & _ & Hcur & _).
  exists kw. split; [exact Hc|exact Hcur].
Defined.

(** X4: when the processor raises on the payment request, [authorise]
    raises that same exception (no class of the module is substituted),
    the request is on record and the transaction is unchanged: in
    particular [authorised] keeps its value. *)
Theorem authorise_processor_error
    (self : PayPalGateway.t) (w : World) (token payerid amt : pyval) (e : exn) :
  __dict__ (trans w) !! "type" = Some (Str "Express") →
  __dict__ (trans w) !! "token" = Some token →
  __dict__ (trans w) !! "payerid" = Some payerid →
  __dict__ (trans w) !! "amt" = Some amt →
  paypal.do_express_checkout_payment (PayPalGateway.interface self) token
    (PayPalGateway.payment_kwargs (Str "Sale") payerid amt) = Raise e →
  ∃ w',
    PayPalGateway.authorise self w = (Raise e, w')
    ∧ trans w' = trans w
    ∧ length (calls w') = S (length (calls w)).
Proof.
  intros Hty Htok Hpid Hamt Hpay.
  pose proof (authorise_express_ready self w _ _ _ Hty Htok Hpid Hamt) as H.
  cbn zeta in H. rewrite Hpay in H. rewrite H.
  eexists. split_and!; [done|done|].
  cbn. rewrite length_app. cbn. lia.
Qed.

Lemma authorise_processor_error_witness :
  let g := Failing.gateway Failing.declining in
  let w := Doubles.world Transaction.class Failing.approved in
  (__dict__ (trans w) !! "type" = Some (Str "Express")
   ∧ __dict__ (trans w) !! "token" = Some (Str "EC-1")
   ∧ __dict__ (trans w) !! "payerid" = Some (Str "PAYER1")
   ∧ __dict__ (trans w) !! "amt" = Some (VScalar (SInt 10)))
  ∧ ∃ w',
      PayPalGateway.authorise g w
      = (Raise (LibraryError "PayPalAPIResponseError"), w')
      ∧ trans w' = trans w.
Proof.
  intros g w.
  assert (H1 : __dict__ (trans w) !! "type" = Some (Str "Express"))
    by (vm_compute; reflexivity).
  assert (H2 : __dict__ (trans w) !! "token" = Some (Str "EC-1"))
    by (vm_compute; reflexivity).
  assert (H3 : __dict__ (trans w) !! "payerid" = Some (Str "PAYER1"))
    by (vm_compute; reflexivity).
  assert (H4 : __dict__ (trans w) !! "amt" = Some (VScalar (SInt 10)))
    by (vm_compute; reflexivity).
  split; [by split_and!|].
  destruct (authorise_processor_error g w _ _ _
              (LibraryError "PayPalAPIResponseError") H1 H2 H3 H4 eq_refl)
    as (w' & Ha & Ht & _).
  by exists w'.
Defined.

(** X5: when the processor answers the payment request with a response
    that has no [TRANSACTIONID], [authorise] raises [AttributeError] after
    the request has been sent, and the transaction is not marked
    authorised. *)
Theorem authorise_response_without_id
    (self : PayPalGateway.t) (w : World) (token payerid amt : pyval)
    (r : Response) :
  __dict__ (trans w) !! "type" = Some (Str "Express") →
  __dict__ (trans w) !! "token" = Some token →
  __dict__ (trans w) !! "payerid" = Some payerid →
  __dict__ (trans w) !! "amt" = Some amt →
  paypal.do_express_checkout_payment (PayPalGateway.interface self) token
    (PayPalGateway.payment_kwargs (Str "Sale") payerid amt) = Ok r →
  r !! "TRANSACTIONID" = None →
  ∃ w',
    PayPalGateway.authorise self w = (Raise (AttributeError "TRANSACTIONID"), w')
    ∧ trans w' = trans w
    ∧ length (calls w') = S (length (calls w)).
Proof.
  intros Hty Htok Hpid Hamt Hpay Hr.
  pose proof (authorise_express_ready self w _ _ _ Hty Htok Hpid Hamt) as H.
  cbn zeta in H. rewrite Hpay, Hr in H. rewrite H.
  eexists. split_and!; [done|done|].
  cbn. rewrite length_app. cbn. lia.
Qed.

Lemma authorise_response_without_id_witness :
  let g := Failing.gateway Failing.anonymous in
  let w := Doubles.world Transaction.class Failing.approved in
  (__dict__ (trans w) !! "type" = Some (Str "Express")
   ∧ __dict__ (trans w) !! "token" = Some (Str "EC-1")
   ∧ __dict__ (trans w) !! "payerid" = Some (Str "PAYER1")
   ∧ __dict__ (trans w) !! "amt" = Some (VScalar (SInt 10)))
  ∧ ∃ w',
      PayPalGateway.authorise g w = (Raise (AttributeError "TRANSACTIONID"), w')
      ∧ trans w' = trans w.
Proof.
  intros g w.
  assert (H1 : __dict__ (trans w) !! "type" = Some (Str "Express"))
    by (vm_compute; reflexivity).
  assert (H2 : __dict__ (trans w) !! "token" = Some (Str "EC-1"))
    by (vm_compute; reflexivity).
  assert (H3 : __dict__ (trans w) !! "payerid" = Some (Str "PAYER1"))
    by (vm_compute; reflexivity).
  assert (H4 : __dict__ (trans w) !! "amt" = Some (VScalar (SInt 10)))
    by (vm_compute; reflexivity).
  split; [by split_and!|].
  destruct (authorise_response_without_id g w _ _ _ {[ "ACK" := SStr "Success" ]}
              H1 H2 H3 H4 eq_refl eq_refl)
    as (w' & Ha & Ht & _).
  by exists w'.
Defined.

(** X6: [authorise] does not look at [authorised].  After an
    authorisation that returned the transaction, a second [authorise] on
    the same transaction sends the same payment request (same token, payer
    and amount) to the processor again. *)
Theorem authorise_again_sends_again
    (self : PayPalGateway.t) (w w' : World) (token payerid amt : pyval) :
  __dict__ (trans w) !! "token" = Some token →
  __dict__ (trans w) !! "payerid" = Some payerid →
  __dict__ (trans w) !! "amt" = Some amt →
  PayPalGateway.authorise self w = (Ok RetTrans, w') →
  let c := {| call_name := "do_express_checkout_payment";
              call_args := [token];
              call_kwargs := PayPalGateway.payment_kwargs (Str "Sale") payerid amt |} in
  __dict__ (trans w') !! "authorised" = Some True_
  ∧ calls w' = (calls w ++ [c])%list
  ∧ calls (PayPalGateway.authorise self w').2 = ((calls w ++ [c]) ++ [c])%list.
Proof.
  intros Htok Hpid Hamt Hok c.
  assert (Hty : __dict__ (trans w) !! "type" = Some (Str "Express")).
  { pose proof (authorise_dispatch self w) as H.
    destruct (__dict__ (trans w) !! "type") as [type|]; [|congruence].
    destruct (eq_str type "Express") eqn:Hexp;
      [by apply eq_str_true in Hexp as ->|].
    destruct (eq_str type "Direct"); congruence. }
  pose proof (authorise_express_ready self w _ _ _ Hty Htok Hpid Hamt) as H.
  cbn zeta in H.
  destruct (paypal.do_express_checkout_payment _ _ _) as [r|e] eqn:Hpay;
    [|congruence].
  destruct (r !! "TRANSACTIONID") as [tid|] eqn:Htid; [|congruence].
  rewrite H in Hok. injection Hok as <-.
  split_and!; [by cbn; rewrite lookup_insert_eq|done|].
  match goal with
  | |- calls (PayPalGateway.authorise self ?x).2 = _ => set (w1 := x)
  end.
  assert (Hkeep : ∀ k, k ∉ ["transactionid"; "raw"; "authorised"] →
                       __dict__ (trans w1) !! k = __dict__ (trans w) !! k).
  { intros k Hk. cbn. rewrite !not_elem_of_cons in Hk.
    destruct Hk as (? & ? & ? & _). by rewrite !lookup_insert_ne. }
  assert (Hne : ∀ k : string, k ≠ "transactionid" → k ≠ "raw" → k ≠ "authorised" →
                  k ∉ ["transactionid"; "raw"; "authorised"]).
  { intros k ? ? ?. rewrite !not_elem_of_cons.
    split_and!; [done|done|done|apply not_elem_of_nil]. }
  pose proof (authorise_express_ready self w1 token payerid amt) as H1.
  cbn zeta in H1. rewrite Hpay, Htid in H1.
  rewrite H1; [done| | | |]; rewrite Hkeep by (by apply Hne); done.
Qed.

Lemma authorise_again_sends_again_witness :
  let w := Doubles.world Transaction.class Failing.approved in
  let w' := (PayPalGateway.authorise Doubles.gateway w).2 in
  (__dict__ (trans w) !! "token" = Some (Str "EC-1")
   ∧ __dict__ (trans w) !! "payerid" = Some (Str "PAYER1")
   ∧ __dict__ (trans w) !! "amt" = Some (VScalar (SInt 10))
   ∧ PayPalGateway.authorise Doubles.gateway w = (Ok RetTrans, w'))
  ∧ length (calls (PayPalGateway.authorise Doubles.gateway w').2) = 2.
Proof.
  intros w w'.
  assert (H2 : __dict__ (trans w) !! "token" = Some (Str "EC-1"))
    by (vm_compute; reflexivity).
  assert (H3 : __dict__ (trans w) !! "payerid" = Some (Str "PAYER1"))
    by (vm_compute; reflexivity).
  assert (H4 : __dict__ (trans w) !! "amt" = Some (VScalar (SInt 10)))
    by (vm_compute; reflexivity).
  assert (H5 : PayPalGateway.authorise Doubles.gateway w = (Ok RetTrans, w'))
    by (vm_compute; reflexivity).
  split; [by split_and!|].
  destruct (authorise_again_sends_again Doubles.gateway w w' _ _ _ H2 H3 H4 H5)
    as (_ & _ & Hc).
  rewrite Hc. reflexivity.
Defined.

(** ** The set-up, case by case *)

(** X7: when [PayPalGateway.setupRedirect] raises, the transaction is
    either exactly what it was, or (when the redirect URL could not be
    built) it already carries the token of the processor's response while
    every other field, [next] included, is what it was: the set-up is not
    undone. *)
Theorem setupRedirect_failure_states
    (order : DictOrder) (self : PayPalGateway.t) (w w' : World) (e : exn) :
  PayPalGateway.setupRedirect order self w = (Raise e, w') →
  trans w' = trans w
  ∨ ∃ r token,
      paypal.set_express_checkout (PayPalGateway.interface self)
        (PayPalGateway.params order (__dict__ (trans w))) = Ok r
      ∧ r !! "token" = Some token
      ∧ paypal.generate_express_checkout_redirect_url
          (PayPalGateway.interface self) (VScalar token) = Raise e
      ∧ ob_class (trans w') = ob_class (trans w)
      ∧ __dict__ (trans w')
        = <["token" := VScalar token]> (__dict__ (trans w)).
Proof.
  unfold PayPalGateway.setupRedirect, bind, getattr.
  destruct (__dict__ (trans w) !! "type") as [type|];
    [|intros [= <- <-]; by left].
  destruct (eq_str type "Express");
    [|intros [= <- <-]; by left].
  pose proof (setupExpressTransfer_cases order self w) as H. cbn zeta in H.
  destruct (paypal.set_express_checkout _ _) as [r|e'] eqn:Hset;
    [|rewrite H; intros [= <- <-]; by left].
  destruct (r !! "token") as [token|] eqn:Htok;
    [|rewrite H; intros [= <- <-]; by left].
  destruct (paypal.generate_express_checkout_redirect_url _ _) as [url|e']
    eqn:Hurl; rewrite H; [done|].
  intros [= <- <-]. right. exists r, token. by split_and!.
Qed.

Lemma setupRedirect_failure_states_witness :
  let g := Failing.gateway Failing.no_url in
  let w := Doubles.world Transaction.class
             (<["authorised" := False_]> {[ "type" := Str "Express" ]}) in
  let w' := (PayPalGateway.setupRedirect sorted_order g w).2 in
  PayPalGateway.setupRedirect sorted_order g w
  = (Raise (LibraryError "PayPalError"), w')
  ∧ __dict__ (trans w') !! "token" = Some (Str "EC-1")
  ∧ __dict__ (trans w') !! "next" = None.
Proof.
  intros g w w'.
  assert (H : PayPalGateway.setupRedirect sorted_order g w
              = (Raise (LibraryError "PayPalError"), w'))
    by (vm_compute; reflexivity).
  split; [exact H|].
  destruct (setupRedirect_failure_states sorted_order g w w' _ H)
    as [Hsame|(r & token & _ & _ & _ & _ & Hd)].
  - exfalso. assert (Hl : __dict__ (trans w') !! "token"
                          = __dict__ (trans w) !! "token") by by rewrite Hsame.
    vm_compute in Hl. discriminate Hl.
  - split; vm_compute; reflexivity.
Defined.

(** X8: the token presented to the processor on authorisation is the
    one the processor issued at set-up.  After a set-up that returned
    normally, once [payerid] is added, [authorise] on a transaction that
    carries [amt] sends the token of the [set_express_checkout] response as
    the positional argument of the payment request. *)
Theorem round_trip_token
    (order : DictOrder) (self : PayPalGateway.t) (w w1 : World)
    (r1 : Ret) (payer amt : pyval) :
  PayPalGateway.setupRedirect order self w = (Ok r1, w1) →
  __dict__ (trans w) !! "amt" = Some amt →
  ∃ resp token,
    paypal.set_express_checkout (PayPalGateway.interface self)
      (PayPalGateway.params order (__dict__ (trans w))) = Ok resp
    ∧ resp !! "token" = Some token
    ∧ calls (PayPalGateway.authorise self (setattr "payerid" payer w1).2).2
      = (calls w1 ++
           [{| call_name := "do_express_checkout_payment";
               call_args := [VScalar token];
               call_kwargs :=
                 PayPalGateway.payment_kwargs (Str "Sale") payer amt |}])%list.
Proof.
  intros Hsetup Hamt.
  unfold PayPalGateway.setupRedirect, bind, getattr in Hsetup.
  destruct (__dict__ (trans w) !! "type") as [type|] eqn:Hty; [|done].
  destruct (eq_str type "Express") eqn:Hexp; [|done].
  apply eq_str_true in Hexp as ->.
  pose proof (setupExpressTransfer_cases order self w) as H. cbn zeta in H.
  destruct (paypal.set_express_checkout _ _) as [resp|e] eqn:Hset;
    [|by rewrite H in Hsetup].
  destruct (resp !! "token") as [token|] eqn:Htok; [|by rewrite H in Hsetup].
  destruct (paypal.generate_express_checkout_redirect_url _ _) as [url|e];
    rewrite H in Hsetup; [|done].
  injection Hsetup as <- <-. exists resp, token. split_and!; [done|done|].
  match goal with
  | |- calls (PayPalGateway.authorise self ?x).2 = _ => set (wp := x)
  end.
  pose proof (authorise_express_ready self wp (VScalar token) payer amt) as HA.
  assert (Hgoal :
    calls (PayPalGateway.authorise self wp).2
    = (calls wp ++ [{| call_name := "do_express_checkout_payment";
                       call_args := [VScalar token];
                       call_kwargs :=
                         PayPalGateway.payment_kwargs (Str "Sale") payer amt |}])%list).
  { assert (Ht : __dict__ (trans wp) !! "type" = Some (Str "Express")).
    { subst wp. cbn. by rewrite !lookup_insert_ne. }
    assert (Hk : __dict__ (trans wp) !! "token" = Some (VScalar token)).
    { subst wp. cbn. rewrite lookup_insert_ne by done.
      rewrite lookup_insert_ne by done. apply lookup_insert_eq. }
    assert (Hp : __dict__ (trans wp) !! "payerid" = Some payer).
    { subst wp. cbn. apply lookup_insert_eq. }
    assert (Ha : __dict__ (trans wp) !! "amt" = Some amt).
    { subst wp. cbn. by rewrite !lookup_insert_ne. }
    specialize (HA Ht Hk Hp Ha). cbn zeta in HA.
    destruct (paypal.do_express_checkout_payment _ _ _) as [r|e].
    - destruct (r !! "TRANSACTIONID"); by rewrite HA.
    - by rewrite HA. }
  exact Hgoal.
Qed.

Lemma round_trip_token_witness :
  let w := Doubles.world Transaction.class
             (<["authorised" := False_]>
                (<["amt" := VScalar (SInt 10)]> {[ "type" := Str "Express" ]})) in
  let w1 := (PayPalGateway.setupRedirect sorted_order Doubles.gateway w).2 in
  (PayPalGateway.setupRedirect sorted_order Doubles.gateway w = (Ok RetTrans, w1)
   ∧ __dict__ (trans w) !! "amt" = Some (VScalar (SInt 10)))
  ∧ ∃ c, last (calls (PayPalGateway.authorise Doubles.gateway
                         (setattr "payerid" (Str "PAYER1") w1).2).2) = Some c
         ∧ call_args c = [Str "EC-1"].
Proof.
  intros w w1.
  assert (H1 : PayPalGateway.setupRedirect sorted_order Doubles.gateway w
               = (Ok RetTrans, w1)) by (vm_compute; reflexivity).
  assert (H2 : __dict__ (trans w) !! "amt" = Some (VScalar (SInt 10)))
    by (vm_compute; reflexivity).
  split; [by split|].
  destruct (round_trip_token sorted_order Doubles.gateway w w1 RetTrans
              (Str "PAYER1") _ H1 H2) as (resp & token & Hset & Htok & Hc).
  cbn in Hset. injection Hset as <-.
  rewrite lookup_singleton_eq in Htok. injection Htok as <-.
  eexists. rewrite Hc, last_snoc. by split.
Defined.

(** ** Initialisation, case by case *)

(** [PayPalGateway(app)] never lets a [KeyError] out: the one the
    package may raise is replaced on line 127. *)
Lemma new_not_KeyError pkg app : PayPalGateway.new pkg app ≠ Raise KeyError.
Proof.
  unfold PayPalGateway.new, PayPalGateway.__init__, try_except_KeyError,
    PayPalGateway._init_API, bind, lift, raise.
  destruct (paypal.PayPalConfig pkg _) as [c|e].
  - destruct (paypal.PayPalInterface pkg c) as [i|e]; [done|]. by destruct e.
  - by destruct e.
Qed.

Lemma init_app_not_PayPal pkg order app self :
  dict_get (config app) "PAYMENT_API" None_ ≠ Str "PayPal" →
  Payments.init_app pkg order app self = (Raise PaymentsConfigurationError, self).
Proof.
  intros Hne. unfold Payments.init_app.
  apply bind_raise. unfold Payments._init_gateway, try_except_KeyError.
  rewrite (bind_raise _ _ self KeyError self); [done|].
  unfold lift. rewrite getitem_unregistered; [done|].
  intros s Hs. rewrite gateways_dom. intros ->%elem_of_singleton. by apply Hne.
Qed.

Lemma init_app_is_PayPal pkg order app self :
  dict_get (config app) "PAYMENT_API" None_ = Str "PayPal" →
  match PayPalGateway.new pkg app with
  | Ok g =>
      Payments.init_app pkg order app self
      = (Ok tt,
         {| Payments.gateway := Some (PayPalGateway.bound order g);
            Payments.testing := Some (dict_get (config app) "TESTING" None_);
            Payments.app := Some app |})
  | Raise e => Payments.init_app pkg order app self = (Raise e, self)
  end.
Proof.
  intros Hk. pose proof (new_not_KeyError pkg app) as Hn.
  unfold Payments.init_app, Payments._init_gateway, try_except_KeyError,
    bind, lift.
  rewrite Hk. cbn [getitem]. unfold Payments.gateways.
  rewrite lookup_singleton_eq.
  destruct (PayPalGateway.new pkg app) as [g|e]; [done|]. by destruct e.
Qed.

(** X9: [init_app] is all or nothing on the facade.  When it returns,
    the configured gateway was ['PayPal'], the gateway bound is the
    [PayPalGateway] built from the application, [testing] is the value of
    [TESTING] ([None] when absent) and [app] is the application; when it
    raises, the facade is exactly what it was ([testing] and [app] are not
    assigned), and the exception is never [KeyError]. *)
Theorem init_app_all_or_nothing
    (pkg : paypal.package) (order : DictOrder) (app : App) (self : Payments.t) :
  match Payments.init_app pkg order app self with
  | (Ok _, self') =>
      dict_get (config app) "PAYMENT_API" None_ = Str "PayPal"
      ∧ (∃ g, PayPalGateway.new pkg app = Ok g
              ∧ Payments.gateway self' = Some (PayPalGateway.bound order g))
      ∧ Payments.testing self' = Some (dict_get (config app) "TESTING" None_)
      ∧ Payments.app self' = Some app
  | (Raise e, self') => self' = self ∧ e ≠ KeyError
  end.
Proof.
  destruct (decide (dict_get (config app) "PAYMENT_API" None_ = Str "PayPal"))
    as [Hk|Hk].
  - pose proof (init_app_is_PayPal pkg order app self Hk) as H.
    pose proof (new_not_KeyError pkg app) as Hn.
    destruct (PayPalGateway.new pkg app) as [g|e]; rewrite H.
    + split_and!; [done| |done|done]. by exists g.
    + split; [done|]. by intros ->.
  - by rewrite init_app_not_PayPal.
Qed.

(** X10: with [PAYMENT_API] set to ['PayPal'], [init_app] follows the
    [paypal] package through both constructors.  When the package accepts
    the configuration, the facade is bound to a gateway around the
    interface the package returned; a [KeyError] of either constructor
    comes out as [PaymentsConfigurationError], and is not caught a second
    time by the facade; any other exception of the package comes out as it
    is.  In every failing case the facade is unchanged. *)
Theorem init_app_PayPal
    (pkg : paypal.package) (order : DictOrder) (app : App) (self : Payments.t) :
  dict_get (config app) "PAYMENT_API" None_ = Str "PayPal" →
  let bound_to i :=
    (Ok tt,
     {| Payments.gateway :=
          Some (PayPalGateway.bound order {| PayPalGateway.interface := i |});
        Payments.testing := Some (dict_get (config app) "TESTING" None_);
        Payments.app := Some app |}) in
  match paypal.PayPalConfig pkg (PayPalGateway.config_kwargs app) with
  | Raise KeyError =>
      Payments.init_app pkg order app self = (Raise PaymentsConfigurationError, self)
  | Raise e => Payments.init_app pkg order app self = (Raise e, self)
  | Ok c =>
      match paypal.PayPalInterface pkg c with
      | Raise KeyError =>
          Payments.init_app pkg order app self
          = (Raise PaymentsConfigurationError, self)
      | Raise e => Payments.init_app pkg order app self = (Raise e, self)
      | Ok i => Payments.init_app pkg order app self = bound_to i
      end
  end.
Proof.
  intros Hk bound_to. subst bound_to.
  pose proof (init_app_is_PayPal pkg order app self Hk) as H. revert H.
  unfold PayPalGateway.new, PayPalGateway.__init__, try_except_KeyError,
    PayPalGateway._init_API, bind, lift, raise.
  destruct (paypal.PayPalConfig pkg _) as [c|e].
  - destruct (paypal.PayPalInterface pkg c) as [i|e]; [done|]. by destruct e.
  - by destruct e.
Qed.

Lemma init_app_PayPal_witness :
  let app := {| config := <["TESTING" := True_]> {[ "PAYMENT_API" := Str "PayPal" ]} |} in
  dict_get (config app) "PAYMENT_API" None_ = Str "PayPal"
  ∧ Payments.init_app Doubles.lenient sorted_order app Payments.fresh
    = (Ok tt,
       {| Payments.gateway :=
            Some (PayPalGateway.bound sorted_order Doubles.gateway);
          Payments.testing := Some True_;
          Payments.app := Some app |})
  ∧ Payments.init_app Failing.unreachable sorted_order app Payments.fresh
    = (Raise (LibraryError "PayPalError"), Payments.fresh).
Proof.
  intros app.
  assert (Hk : dict_get (config app) "PAYMENT_API" None_ = Str "PayPal")
    by (vm_compute; reflexivity).
  split_and!; [exact Hk| |].
  - exact (init_app_PayPal Doubles.lenient sorted_order app Payments.fresh Hk).
  - exact (init_app_PayPal Failing.unreachable sorted_order app Payments.fresh Hk).
Defined.

(** X11: a facade that [init_app] configured forwards to a
    [PayPalGateway] built from the same application: on a transaction
    whose [validate()] returns [True], its [setupRedirect] and [authorise]
    are those of that gateway, result and effects alike. *)
Theorem configured_facade_forwards
    (pkg : paypal.package) (order : DictOrder) (app : App)
    (self self' : Payments.t) (w : World) :
  Payments.init_app pkg order app self = (Ok tt, self') →
  (call_validate w).1 = Ok true →
  ∃ g, PayPalGateway.new pkg app = Ok g
       ∧ Payments.setupRedirect self' w = PayPalGateway.setupRedirect order g w
       ∧ Payments.authorise self' w = PayPalGateway.authorise g w.
Proof.
  intros Hinit Hv.
  destruct (decide (dict_get (config app) "PAYMENT_API" None_ = Str "PayPal"))
    as [Hk|Hk]; [|by rewrite init_app_not_PayPal in Hinit].
  pose proof (init_app_is_PayPal pkg order app self Hk) as H.
  destruct (PayPalGateway.new pkg app) as [g|e]; [|congruence].
  rewrite H in Hinit. injection Hinit as <-.
  exists g. split; [done|].
  by apply (facade_delegates _ (PayPalGateway.bound order g) w).
Qed.

Lemma configured_facade_forwards_witness :
  let app := {| config := {[ "PAYMENT_API" := Str "PayPal" ]} |} in
  let p := (Payments.init_app Doubles.lenient sorted_order app Payments.fresh).2 in
  let w := Doubles.world Transaction.class Failing.approved in
  (Payments.init_app Doubles.lenient sorted_order app Payments.fresh = (Ok tt, p)
   ∧ (call_validate w).1 = Ok true)
  ∧ Payments.authorise p w = PayPalGateway.authorise Doubles.gateway w.
Proof.
  intros app p w.
  assert (H1 : Payments.init_app Doubles.lenient sorted_order app Payments.fresh
               = (Ok tt, p)) by reflexivity.
  assert (H2 : (call_validate w).1 = Ok true) by (vm_compute; reflexivity).
  split; [by split|].
  destruct (configured_facade_forwards Doubles.lenient sorted_order app
              Payments.fresh p w H1 H2) as (g & Hg & _ & Ha).
  injection Hg as <-. exact Ha.
Defined.

(** X12: a facade built without an application has no gateway, and so
    has one on which [init_app] raised.  On a transaction whose
    [validate()] returns [True], [setupRedirect] and [authorise] of such a
    facade raise [AttributeError] for [gateway] and leave the transaction
    and the record of calls as they were. *)
Theorem facade_without_gateway
    (pkg : paypal.package) (order : DictOrder) (w : World) :
  (call_validate w).1 = Ok true →
  let p := (Payments.__init__ pkg order None Payments.fresh).2 in
  let fails (q : Payments.t) :=
    Payments.setupRedirect q w = (Raise (AttributeError "gateway"), w)
    ∧ Payments.authorise q w = (Raise (AttributeError "gateway"), w) in
  fails p
  ∧ ∀ app e p', Payments.init_app pkg order app p = (Raise e, p') → fails p'.
Proof.
  intros Hv%call_validate_returns p fails.
  assert (Hp : fails p).
  { unfold fails, Payments.setupRedirect, Payments.authorise,
      Payments.self_gateway, bind. by rewrite Hv. }
  split; [exact Hp|].
  intros app e p' Hinit.
  pose proof (init_app_not_PayPal pkg order app p) as Hno.
  pose proof (init_app_is_PayPal pkg order app p) as Hyes.
  destruct (decide (dict_get (config app) "PAYMENT_API" None_ = Str "PayPal"))
    as [Hk|Hk].
  - specialize (Hyes Hk).
    destruct (PayPalGateway.new pkg app) as [g|e']; rewrite Hyes in Hinit;
      [done|]. by injection Hinit as _ <-.
  - rewrite (Hno Hk) in Hinit. by injection Hinit as _ <-.
Qed.

Lemma facade_without_gateway_witness :
  let w := Doubles.world Transaction.class {[ "type" := Str "Express" ]} in
  let p := (Payments.__init__ Doubles.strict sorted_order None Payments.fresh).2 in
  (call_validate w).1 = Ok true
  ∧ Payments.authorise p w = (Raise (AttributeError "gateway"), w).
Proof.
  intros w p.
  assert (Hv : (call_validate w).1 = Ok true) by (vm_compute; reflexivity).
  split; [exact Hv|].
  exact (proj2 (proj1 (facade_without_gateway Doubles.strict sorted_order w Hv))).
Defined.

(** ** The names of the request parameters *)

Lemma upper_ascii_idem a : upper_ascii (upper_ascii a) = upper_ascii a.
Proof. destruct a as [[] [] [] [] [] [] [] []]; vm_compute; reflexivity. Qed.

Lemma upper_ascii_underscore a :
  Ascii.eqb (upper_ascii a) "_" = Ascii.eqb a "_".
Proof. destruct a as [[] [] [] [] [] [] [] []]; vm_compute; reflexivity. Qed.

Lemma upper_idem s : upper (upper s) = upper s.
Proof. induction s as [|a s IH]; [done|]. cbn. by rewrite upper_ascii_idem, IH. Qed.

Lemma replace_upper s :
  replace_char_empty "_" (upper s) = upper (replace_char_empty "_" s).
Proof.
  induction s as [|a s IH]; [done|]. cbn. rewrite upper_ascii_underscore.
  destruct (Ascii.eqb a "_"); cbn; by rewrite IH.
Qed.

Lemma replace_idem s :
  replace_char_empty "_" (replace_char_empty "_" s) = replace_char_empty "_" s.
Proof.
  induction s as [|a s IH]; [done|]. cbn.
  destruct (Ascii.eqb a "_") eqn:E; cbn; [done|]. by rewrite E, IH.
Qed.

Lemma keycase_idem k : keycase (keycase k) = keycase k.
Proof.
  unfold keycase. by rewrite replace_upper, replace_idem, upper_idem.
Qed.

(** X13: the translation of a field name is a normal form: it holds no
    underscore and no lower-case letter, so translating it again changes
    nothing. *)
Theorem keycase_idempotent (k : string) :
  replace_char_empty "_" (keycase k) = keycase k
  ∧ upper (keycase k) = keycase k
  ∧ keycase (keycase k) = keycase k.
Proof.
  split_and!.
  - unfold keycase. by rewrite replace_upper, replace_idem.
  - unfold keycase. apply upper_idem.
  - apply keycase_idem.
Qed.

(** X14: every name among the parameters of the set-up request is in
    that normal form, so the keyword [self] is never among them, whatever
    the fields of the transaction are called. *)
Theorem params_names_normalised
    (order : DictOrder) (d : gmap string pyval) (K : string) :
  is_Some (PayPalGateway.params order d !! K) →
  keycase K = K ∧ K ≠ "self".
Proof.
  intros [v HK].
  apply py_dict_lookup_Some, elem_of_translated in HK as (k & <- & _).
  split; [apply keycase_idem|].
  intros Hself. pose proof (keycase_idem k) as Hi. rewrite Hself in Hi.
  vm_compute in Hi. discriminate Hi.
Qed.

Lemma params_names_normalised_witness :
  let d : gmap string pyval := {[ "self" := Str "x" ]} in
  is_Some (PayPalGateway.params sorted_order d !! "SELF")
  ∧ keycase "SELF" = "SELF" ∧ "SELF" ≠ "self".
Proof.
  intros d.
  assert (H : is_Some (PayPalGateway.params sorted_order d !! "SELF")).
  { exists (Str "x"). vm_compute. reflexivity. }
  split; [exact H|].
  exact (params_names_normalised sorted_order d "SELF" H).
Defined.

(** X15: when no two fields of the transaction share a translated
    name, the order in which Python enumerates the fields makes no
    difference: the parameters are the same, and so are the result and the
    effects of [setupRedirect]. *)
Theorem params_order_independent
    (o1 o2 : DictOrder) (self : PayPalGateway.t) (w : World) :
  let d := __dict__ (trans w) in
  (∀ k k', is_Some (d !! k) → is_Some (d !! k') →
           keycase k = keycase k' → k = k') →
  PayPalGateway.params o1 d = PayPalGateway.params o2 d
  ∧ PayPalGateway.setupRedirect o1 self w = PayPalGateway.setupRedirect o2 self w.
Proof.
  intros d Hinj.
  assert (Heq : PayPalGateway.params o1 d = PayPalGateway.params o2 d).
  { apply map_eq. intros K. unfold PayPalGateway.params.
    destruct (py_dict (_ <$> iteritems o1 d) !! K) as [v|] eqn:H1.
    - symmetry.
      apply py_dict_lookup_Some, elem_of_translated in H1 as (k & <- & Hk).
      apply py_dict_lookup_unique.
      + apply elem_of_translated. eauto.
      + intros v' (k' & Hkk & Hk')%elem_of_translated.
        assert (k' = k) as -> by (apply Hinj; eauto).
        congruence.
    - destruct (py_dict (_ <$> iteritems o2 d) !! K) as [v|] eqn:H2; [|done].
      apply py_dict_lookup_Some, elem_of_translated in H2 as (k & <- & Hk).
      destruct (py_dict_lookup_is_Some
                  ((λ kv : string * pyval, (keycase kv.1, kv.2))
                     <$> iteritems o1 d) (keycase k) v) as [v' Hv'].
      { apply elem_of_translated. eauto. }
      congruence. }
  split; [exact Heq|].
  unfold PayPalGateway.setupRedirect, bind.
  destruct (getattr "type" w) as [[type|e] w0] eqn:Hty; [|done].
  assert (w0 = w) as ->.
  { unfold getattr in Hty. by destruct (__dict__ (trans w) !! "type"); injection Hty. }
  destruct (eq_str type "Express"); [|done].
  unfold PayPalGateway._setupExpressTransfer, bind. cbv beta iota.
  fold d. by rewrite Heq.
Qed.

Lemma params_order_independent_witness :
  let w := Doubles.world Transaction.class
             (<["return_url" := Str "https://shop.example/back"]>
                {[ "type" := Str "Express" ]}) in
  let d := __dict__ (trans w) in
  (∀ k k', is_Some (d !! k) → is_Some (d !! k') →
           keycase k = keycase k' → k = k')
  ∧ PayPalGateway.params sorted_order d = PayPalGateway.params reversed_order d.
Proof.
  intros w d.
  assert (Hinj : ∀ k k', is_Some (d !! k) → is_Some (d !! k') →
                         keycase k = keycase k' → k = k').
  { assert (Hdom : ∀ k, is_Some (d !! k) → k = "return_url" ∨ k = "type").
    { intros k [v Hk]. subst d w. cbn in Hk.
      apply lookup_insert_Some in Hk as [[<- _]|[_ Hk]]; [by left|].
      apply lookup_singleton_Some in Hk as [<- _]. by right. }
    intros k k' [->| ->]%Hdom [->| ->]%Hdom Hkk;
      first [reflexivity | vm_compute in Hkk; discriminate Hkk]. }
  split; [exact Hinj|].
  exact (proj1 (params_order_independent sorted_order reversed_order
                  Doubles.gateway w Hinj)).
Defined.
